(** * Langkit GDB helpers: the [state], [break] and [out] commands

    A shallow embedding of [langkit/gdb/commands.py].  Each command is a
    computation over the host debugger: what it prints, the breakpoints it
    sets and the commands it asks GDB to execute are recorded, in order, in
    a log; a Python exception that escapes a command is an outcome of its
    own. *)

From Stdlib Require Import List String Ascii ZArith Lia Bool DecimalString.
From Stdlib Require DecimalPos DecimalZ.
Import ListNotations.
Open Scope string_scope.

(** ** Python built-ins used by the commands *)

Module Py.

(** [str.lower] on a byte string: only ASCII upper-case letters change. *)
Definition lower_char (c : ascii) : ascii :=
  let n := nat_of_ascii c in
  if (65 <=? n)%nat && (n <=? 90)%nat then ascii_of_nat (n + 32) else c.

Fixpoint lower (s : string) : string :=
  match s with
  | EmptyString => EmptyString
  | String c s' => String (lower_char c) (lower s')
  end.

(** [str(n)] and ['{}'.format(n)] for an integer. *)
Definition str_int (n : Z) : string := NilZero.string_of_int (Z.to_int n).

(** Truth value of a string: non-empty. *)
Definition truthy (s : string) : bool :=
  match s with EmptyString => false | String _ _ => true end.

(** [s.startswith(p)]. *)
Definition startswith (s p : string) : bool := String.prefix p s.

(** [c in s] for a character [c]. *)
Fixpoint contains_char (c : ascii) (s : string) : bool :=
  match s with
  | EmptyString => false
  | String d s' => Ascii.eqb c d || contains_char c s'
  end.

(** [s[1:]]. *)
Definition tail (s : string) : string :=
  match s with EmptyString => EmptyString | String _ s' => s' end.

(** [s[:n]]. *)
Definition take (n : nat) (s : string) : string := String.substring 0 n s.

(** The characters [str.strip] removes: space, tab, newline, vertical
    tab, form feed and carriage return. *)
Definition is_space (c : ascii) : bool :=
  let n := nat_of_ascii c in
  (n =? 32)%nat || ((9 <=? n)%nat && (n <=? 13)%nat).

Fixpoint lstrip (s : string) : string :=
  match s with
  | EmptyString => EmptyString
  | String c s' => if is_space c then lstrip s' else s
  end.

Fixpoint rstrip (s : string) : string :=
  match s with
  | EmptyString => EmptyString
  | String c s' =>
      match rstrip s' with
      | EmptyString => if is_space c then EmptyString else String c EmptyString
      | r => String c r
      end
  end.

Definition strip (s : string) : string := rstrip (lstrip s).

Definition hex_digit (n : nat) : ascii :=
  if (n <? 10)%nat then ascii_of_nat (48 + n) else ascii_of_nat (87 + n).

Definition squote : ascii := ascii_of_nat 39.
Definition dquote : ascii := ascii_of_nat 34.
Definition backslash : ascii := ascii_of_nat 92.

(** [repr(c)] for a one-character byte string. *)
Definition repr_char (c : ascii) : string :=
  let n := nat_of_ascii c in
  if (n =? 39)%nat then String dquote (String c (String dquote EmptyString))
  else
    let body :=
      if (n =? 92)%nat then String backslash (String backslash EmptyString)
      else if (n =? 9)%nat then String backslash "t"
      else if (n =? 10)%nat then String backslash "n"
      else if (n =? 13)%nat then String backslash "r"
      else if (n <? 32)%nat || (127 <=? n)%nat then
        String backslash
          (String "x" (String (hex_digit (n / 16))
                         (String (hex_digit (n mod 16)) EmptyString)))
      else String c EmptyString in
    String squote (body ++ String squote EmptyString).

End Py.

(** ** Outcomes of a command *)

(** The Python exceptions a command can let escape. *)
Inductive exn : Type :=
| AttributeError (msg : string)
| ValueError (msg : string).

Inductive outcome (A : Type) : Type :=
| Returned (a : A)
| Raised (e : exn).

Arguments Returned {A} a.
Arguments Raised {A} e.

(** What a command does to the debugging session, in order. *)
Inductive Effect : Type :=
| Print (line : string)              (* print(line) *)
| Breakpoint (spec : string)         (* gdb.Breakpoint(spec) *)
| Execute (command : string).        (* gdb.execute(command) *)

Definition is_print (e : Effect) : bool :=
  match e with Print _ => true | _ => false end.

(** ** The debug information model ([langkit.gdb.debug_info]) *)

(** Modelled from the spec: [langkit.gdb.debug_info.DSLLocation], a position
    in the original source.  Its representation is left open; the commands
    use its formatting, its partial-match rule and its parser, which may
    raise. *)
Class Location : Type := {
  DSLLocation : Type;
  DSLLocation_str : DSLLocation -> string;
  DSLLocation_matches : DSLLocation -> DSLLocation -> bool;
  DSLLocation_parse : string -> outcome DSLLocation
}.

(** Modelled from the spec: the range of generated lines of a scope. *)
Record LineRange : Type := mkLineRange { first_line : Z; last_line : Z }.

(** Modelled from the spec: a binding declares a source-level variable name
    and the name of the generated variable that backs it. *)
Record Binding : Type := mkBinding { dsl_name : string; gen_name : string }.

Section DebugInfoModel.

Context {L : Location}.

(** Modelled from the spec: the events of a scope, a tagged union of
    bindings, expression starts, expression completions and nested
    scopes. *)
Inductive Event : Type :=
| EvBinding (b : Binding)
| ExprStart (expr_id : Z) (expr_repr : string)
            (dsl_sloc : option DSLLocation) (line_no : Z)
| ExprDone (expr_id : Z) (line_no : Z) (result_var : string)
| EvScope (s : Scope)
with Scope : Type :=
| mkScope (line_range : LineRange) (events : list Event).

Definition line_range (s : Scope) : LineRange :=
  match s with mkScope r _ => r end.

Definition events (s : Scope) : list Event :=
  match s with mkScope _ es => es end.

(** Modelled from the spec: a property is a scope with a qualified name, an
    originating location and its top-level nested scopes. *)
Record Property : Type := mkProperty {
  name : string;
  prop_dsl_sloc : DSLLocation;
  prop_scope : Scope;
  subscopes : list Scope
}.

(** Modelled from the spec: the list of the properties, and the name of the
    generated source file breakpoints are set in. *)
Record DebugInfo : Type := mkDebugInfo {
  filename : string;
  properties : list Property
}.

(** ** The decoded state ([langkit.gdb.state]) *)

(** Modelled from the spec: the status of an expression is one of not
    started, started (in progress) and done, the latter with the name of
    the variable that holds the result. *)
Inductive EvalStatus : Type :=
| NotStarted
| Started
| Done (result_var : string).

(** Modelled from the spec: the evaluation of an expression has the id, the
    textual representation and the optional location of its start event,
    and a status. *)
Record ExpressionEvaluation : Type := mkExpressionEvaluation {
  ee_expr_id : Z;
  ee_expr_repr : string;
  ee_dsl_sloc : option DSLLocation;
  ee_status : EvalStatus
}.

Definition is_started (e : ExpressionEvaluation) : bool :=
  match ee_status e with Started => true | _ => false end.

Definition is_done (e : ExpressionEvaluation) : bool :=
  match ee_status e with Done _ => true | _ => false end.

(** Modelled from the spec: the state of a scope, with its visible bindings
    and its expressions.  [expressions] is a dictionary from expression ids
    to evaluations; the commands only iterate over its values, in order. *)
Record ScopeState : Type := mkScopeState {
  scope : Scope;
  bindings : list Binding;
  expressions : list (Z * ExpressionEvaluation)
}.

Definition values (d : list (Z * ExpressionEvaluation))
  : list ExpressionEvaluation := map snd d.

(** Modelled from the spec: the active property and the states of the
    enclosing scopes, outermost first. *)
Record State : Type := mkState {
  property : Property;
  scopes : list ScopeState
}.

End DebugInfoModel.

(** ** The host debugger *)

(** The inferior ([Host]) and its frames are GDB's.  The inferior is stopped
    with a frame selected whenever a command runs; the commands read the
    display text of a variable from a frame, ask for the selected frame, and
    resume execution with [gdb.execute].  [Property_ne] is [!=] on two
    property objects and [ExpressionEvaluation_str] is ['{}'.format(e)] for
    an expression evaluation. *)
Class Gdb {L : Location} : Type := {
  Frame : Type;
  read_var : Frame -> string -> string;
  Host : Type;
  selected_frame : Host -> Frame;
  execute : string -> Host -> Host;
  Property_ne : Property -> Property -> bool;
  ExpressionEvaluation_str : ExpressionEvaluation -> string
}.

Section Session.

Context {L : Location} {G : Gdb}.

(** Modelled from the spec: the context of the commands gives the debug
    information and decodes the state of a frame, [None] when the frame is
    not in a property; decoding reads the frame and changes nothing. *)
Record Context : Type := mkContext {
  debug_info : DebugInfo;
  State_decode : Frame -> option State
}.

Record World : Type := mkWorld {
  host : Host;
  log : list Effect
}.

(** A command threads the world and either returns or raises. *)
Definition Cmd (A : Type) : Type := World -> outcome A * World.

Definition ret {A : Type} (a : A) : Cmd A := fun w => (Returned a, w).

Definition raise {A : Type} (e : exn) : Cmd A := fun w => (Raised e, w).

Definition bind {A B : Type} (c : Cmd A) (k : A -> Cmd B) : Cmd B :=
  fun w =>
    match c w with
    | (Returned a, w') => k a w'
    | (Raised e, w') => (Raised e, w')
    end.

End Session.

Notation "x <- c ;; k" := (bind c (fun x => k))
  (at level 100, c at next level, right associativity).
Notation "c ;;; k" := (bind c (fun _ => k))
  (at level 100, right associativity).

Section Primitives.

Context {L : Location} {G : Gdb}.

Definition emit (e : Effect) : Cmd unit :=
  fun w => (Returned tt, mkWorld (host w) (log w ++ [e])).

Definition print (line : string) : Cmd unit := emit (Print line).

Definition gdb_Breakpoint (spec : string) : Cmd unit := emit (Breakpoint spec).

Definition gdb_execute (command : string) : Cmd unit :=
  fun w => (Returned tt,
            mkWorld (execute command (host w)) (log w ++ [Execute command])).

Definition gdb_selected_frame : Cmd Frame :=
  fun w => (Returned (selected_frame (host w)), w).

(** [for x in xs: body(x)]. *)
Fixpoint for_each {A : Type} (body : A -> Cmd unit) (xs : list A) : Cmd unit :=
  match xs with
  | [] => ret tt
  | x :: xs' => body x ;;; for_each body xs'
  end.

(** [context.decode_state(frame)]; without a frame, the selected one. *)
Definition decode_state (context : Context) (frame : option Frame)
  : Cmd (option State) :=
  match frame with
  | Some f => ret (State_decode context f)
  | None => f <- gdb_selected_frame ;; ret (State_decode context f)
  end.

(** [state.scopes] where [state] may be [None]. *)
Definition get_scopes (state : option State) : Cmd (list ScopeState) :=
  match state with
  | Some s => ret (scopes s)
  | None => raise (AttributeError "'NoneType' object has no attribute 'scopes'")
  end.

(** [state.property] where [state] may be [None]. *)
Definition get_property (state : option State) : Cmd Property :=
  match state with
  | Some s => ret (property s)
  | None =>
      raise (AttributeError "'NoneType' object has no attribute 'property'")
  end.

End Primitives.

(** ** [StatePrinter] *)

Section StatePrinter.

Context {L : Location} {G : Gdb}.

Record StatePrinter : Type := mkStatePrinter {
  sp_context : Context;
  sp_frame : Frame;
  sp_state : option State;
  with_ellipsis : bool;
  with_locs : bool
}.

Definition ellipsis_limit : nat := 50.

(** [StatePrinter.__init__]. *)
Definition StatePrinter_init (context : Context) : Cmd StatePrinter :=
  frame <- gdb_selected_frame ;;
  state <- decode_state context (Some frame) ;;
  ret (mkStatePrinter context frame state true false).

Definition set_with_ellipsis (self : StatePrinter) (b : bool) : StatePrinter :=
  mkStatePrinter (sp_context self) (sp_frame self) (sp_state self)
                 b (with_locs self).

Definition set_with_locs (self : StatePrinter) (b : bool) : StatePrinter :=
  mkStatePrinter (sp_context self) (sp_frame self) (sp_state self)
                 (with_ellipsis self) b.

Definition loc_image (self : StatePrinter) (var_name : string) : string :=
  if with_locs self then " (" ++ var_name ++ ")" else EmptyString.

Definition value_image (self : StatePrinter) (var_name : string) : string :=
  let value := read_var (sp_frame self) (Py.lower var_name) in
  if with_ellipsis self && (ellipsis_limit <? String.length value)%nat
  then Py.take ellipsis_limit value ++ "..."
  else value.

(** The closure [print_info]: [is_first] is the cell it shares with the
    loop over the scopes; the new content of the cell is returned. *)
Definition print_info (is_first : bool) (line : string) : Cmd bool :=
  (if is_first then print EmptyString else ret tt) ;;;
  print line ;;;
  ret false.

Definition binding_line (self : StatePrinter) (b : Binding) : string :=
  dsl_name b ++ loc_image self (gen_name b) ++ " = "
    ++ value_image self (gen_name b).

Definition done_line (self : StatePrinter) (e : ExpressionEvaluation)
  (result_var : string) : string :=
  ee_expr_repr e ++ loc_image self result_var ++ " -> "
    ++ value_image self result_var.

(** [for b in scope_state.bindings: print_info(...)]. *)
Fixpoint run_bindings (self : StatePrinter) (bs : list Binding)
  (is_first : bool) : Cmd bool :=
  match bs with
  | [] => ret is_first
  | b :: bs' =>
      is_first' <- print_info is_first (binding_line self b) ;;
      run_bindings self bs' is_first'
  end.

(** [for e in scope_state.expressions.values(): ...], with the cell and
    [last_started] threaded through. *)
Fixpoint run_expressions (self : StatePrinter)
  (es : list ExpressionEvaluation) (is_first : bool)
  (last_started : option ExpressionEvaluation)
  : Cmd (bool * option ExpressionEvaluation) :=
  match es with
  | [] => ret (is_first, last_started)
  | e :: es' =>
      match ee_status e with
      | Started => run_expressions self es' is_first (Some e)
      | Done result_var =>
          is_first' <- print_info is_first (done_line self e result_var) ;;
          run_expressions self es' is_first' last_started
      | NotStarted => run_expressions self es' is_first last_started
      end
  end.

(** The body of [for scope_state in self.state.scopes]. *)
Definition run_scope (self : StatePrinter) (scope_state : ScopeState)
  : Cmd unit :=
  is_first <- run_bindings self (bindings scope_state) true ;;
  r <- run_expressions self (values (expressions scope_state)) is_first None ;;
  match snd r with
  | Some last_started =>
      is_first' <- print_info (fst r)
                     ("Currently evaluating " ++ ee_expr_repr last_started) ;;
      match ee_dsl_sloc last_started with
      | Some sloc =>
          print_info is_first' ("from " ++ DSLLocation_str sloc) ;;; ret tt
      | None => ret tt
      end
  | None => ret tt
  end.

Definition StatePrinter_run (self : StatePrinter) : Cmd unit :=
  match sp_state self with
  | None => print "Selected frame is not in a property."
  | Some state =>
      print ("Running " ++ name (property state)) ;;;
      print ("from " ++ DSLLocation_str (prop_dsl_sloc (property state))) ;;;
      for_each (run_scope self) (scopes state)
  end.

End StatePrinter.

(** ** [StateCommand] *)

Section StateCommand.

Context {L : Location} {G : Gdb}.

(** [for c in arg[1:]: ...]; [None] when the loop returned from [invoke]
    after reporting an invalid flag. *)
Fixpoint invoke_flags (cs : string) (printer : StatePrinter)
  : Cmd (option StatePrinter) :=
  match cs with
  | EmptyString => ret (Some printer)
  | String c cs' =>
      if Ascii.eqb c "f" then invoke_flags cs' (set_with_ellipsis printer false)
      else if Ascii.eqb c "s" then invoke_flags cs' (set_with_locs printer true)
      else print ("Invalid flag: " ++ Py.repr_char c) ;;; ret None
  end.

Definition StateCommand_invoke (context : Context) (arg : string) : Cmd unit :=
  printer <- StatePrinter_init context ;;
  if Py.truthy arg then
    if negb (Py.startswith arg "/") then print "Invalid argument"
    else
      r <- invoke_flags (Py.tail arg) printer ;;
      match r with
      | Some printer' => StatePrinter_run printer'
      | None => ret tt
      end
  else StatePrinter_run printer.

End StateCommand.

(** ** [BreakCommand] *)

Section BreakCommand.

Context {L : Location} {G : Gdb}.

(** [for prop in properties: if prop.name.lower() == lower_prop: break];
    [None] stands for the [else] branch of the loop. *)
Fixpoint find_property (lower_prop : string) (props : list Property)
  : option Property :=
  match props with
  | [] => None
  | prop :: props' =>
      if String.eqb (Py.lower (name prop)) lower_prop then Some prop
      else find_property lower_prop props'
  end.

Definition break_on_property (context : Context) (qualname : string)
  : Cmd unit :=
  let lower_prop := Py.lower qualname in
  if negb (Py.truthy lower_prop) then print "Missing breakpoint specification"
  else
    match find_property lower_prop (properties (debug_info context)) with
    | None => print ("No such property: " ++ qualname)
    | Some prop =>
        match subscopes prop with
        | [] => print (name prop ++ " has no code")
        | scope0 :: _ =>
            gdb_Breakpoint (filename (debug_info context) ++ ":"
                              ++ Py.str_int (first_line (line_range scope0)))
        end
    end.

Record Match : Type := mkMatch {
  m_prop : Property;
  m_dsl_sloc : DSLLocation;
  m_line_no : Z
}.

(** The local function [process_scope]; [matches] is the list it appends
    to, passed in and returned. *)
Fixpoint process_scope (dsl_sloc : DSLLocation) (prop : Property)
  (scope : Scope) (matches : list Match) : list Match :=
  match scope with
  | mkScope _ evs =>
      (fix loop (es : list Event) (matches : list Match) : list Match :=
         match es with
         | [] => matches
         | e :: es' =>
             loop es'
               match e with
               | EvScope s => process_scope dsl_sloc prop s matches
               | ExprStart _ _ (Some e_sloc) line_no =>
                   if DSLLocation_matches e_sloc dsl_sloc
                   then (matches ++ [mkMatch prop e_sloc line_no])%list
                   else matches
               | _ => matches
               end
         end) evs matches
  end.

(** [for prop in properties: process_scope(prop, prop)]. *)
Fixpoint process_properties (dsl_sloc : DSLLocation) (props : list Property)
  (matches : list Match) : list Match :=
  match props with
  | [] => matches
  | prop :: props' =>
      process_properties dsl_sloc props'
        (process_scope dsl_sloc prop (prop_scope prop) matches)
  end.

Definition match_line (m : Match) : string :=
  "  In " ++ name (m_prop m) ++ ", " ++ DSLLocation_str (m_dsl_sloc m).

Definition break_on_dsl_sloc (context : Context) (dsl_sloc : string)
  : Cmd unit :=
  match DSLLocation_parse dsl_sloc with
  | Raised e => raise e
  | Returned dsl_sloc =>
      let matches :=
        process_properties dsl_sloc (properties (debug_info context)) [] in
      match matches with
      | [] => print ("No match for " ++ DSLLocation_str dsl_sloc)
      | m :: others =>
          if (1 <? List.length matches)%nat then
            print ("Multiple matches for " ++ DSLLocation_str dsl_sloc ++ ":") ;;;
            for_each (fun m => print (match_line m)) matches
          else
            match others with
            | [] =>
                gdb_Breakpoint (filename (debug_info context) ++ ":"
                                  ++ Py.str_int (m_line_no m))
            | _ => raise (ValueError "too many values to unpack")
            end
      end
  end.

Definition BreakCommand_invoke (context : Context) (arg : string) : Cmd unit :=
  let spec := Py.strip arg in
  if Py.contains_char ":" spec then break_on_dsl_sloc context spec
  else break_on_property context spec.

End BreakCommand.

(** ** [OutCommand] *)

Section OutCommand.

Context {L : Location} {G : Gdb}.

(** The two nested loops of [lookup_current_expr], over scope states that
    are already reversed; [None] stands for [(None, None)]. *)
Fixpoint lookup_current_expr_in (rev_scopes : list ScopeState)
  : option (ScopeState * ExpressionEvaluation) :=
  match rev_scopes with
  | [] => None
  | scope_state :: rest =>
      match find is_started (rev (values (expressions scope_state))) with
      | Some e => Some (scope_state, e)
      | None => lookup_current_expr_in rest
      end
  end.

Definition lookup_current_expr (state : option State)
  : Cmd (option (ScopeState * ExpressionEvaluation)) :=
  state_scopes <- get_scopes state ;;
  ret (lookup_current_expr_in (rev state_scopes)).

Fixpoint lookup_expr_in (state_scopes : list ScopeState) (expr_id : Z)
  : option ExpressionEvaluation :=
  match state_scopes with
  | [] => None
  | scope_state :: rest =>
      match find (fun e => Z.eqb (ee_expr_id e) expr_id)
                 (values (expressions scope_state)) with
      | Some e => Some e
      | None => lookup_expr_in rest expr_id
      end
  end.

Definition lookup_expr (state : option State) (expr_id : Z)
  : Cmd (option ExpressionEvaluation) :=
  state_scopes <- get_scopes state ;;
  ret (lookup_expr_in state_scopes expr_id).

(** [for e in scope_state.scope.events: if isinstance(e, ExprDone) and
    e.expr_id == current_expr.expr_id: until_line_no = e.line_no]. *)
Fixpoint find_until_line_no (expr_id : Z) (es : list Event)
  (until_line_no : option Z) : option Z :=
  match es with
  | [] => until_line_no
  | ExprDone e_id line_no _ :: es' =>
      if Z.eqb e_id expr_id then find_until_line_no expr_id es' (Some line_no)
      else find_until_line_no expr_id es' until_line_no
  | _ :: es' => find_until_line_no expr_id es' until_line_no
  end.

(** The local function [error]. *)
Definition error (msg : string) : Cmd unit :=
  print ("ERROR: " ++ msg ++ ": something went wrong...").

Definition OutCommand_invoke (context : Context) (arg : string) : Cmd unit :=
  if Py.truthy arg then print "This command takes no argument"
  else
    state <- decode_state context None ;;
    found <- lookup_current_expr state ;;
    match found with
    | None => print "Not evaluating any expression currently"
    | Some (scope_state, current_expr) =>
        match find_until_line_no (ee_expr_id current_expr)
                (events (scope scope_state)) None with
        | None =>
            print ("ERROR: cannot find the end of evaluation for expression "
                     ++ ExpressionEvaluation_str current_expr
                     ++ ". Code generation may have a bug.")
        | Some until_line_no =>
            gdb_execute ("until " ++ Py.str_int until_line_no) ;;;
            frame <- gdb_selected_frame ;;
            new_state <- decode_state context (Some frame) ;;
            new_expr <- lookup_expr new_state (ee_expr_id current_expr) ;;
            new_property <- get_property new_state ;;
            old_property <- get_property state ;;
            if Property_ne new_property old_property
            then error "we landed in another property"
            else
              match new_expr with
              | None => error "cannot find back the same expression"
              | Some new_expr =>
                  match ee_status new_expr with
                  | Done result_var =>
                      print (ee_expr_repr current_expr ++ " evaluated to: "
                               ++ read_var frame (Py.lower result_var))
                  | _ => error "the expression is not evaluated yet"
                  end
              end
        end
    end.

End OutCommand.

(** ** Token data handlers ([langkit/gdb/tdh.py]) *)

Module TDH.

(** The helpers raise [gdb.error] and nothing else. *)
Inductive result (A : Type) : Type :=
| Ok (a : A)
| GdbError (msg : string).

Arguments Ok {A} a.
Arguments GdbError {A} msg.

(** The GDB value of a vector: its [size] field, and the array its [e]
    field points to, indexed as GDB indexes it. *)
Record Vector (A : Type) : Type := mkVector {
  size : Z;
  e : Z -> A
}.

Arguments mkVector {A} size e.
Arguments size {A} v.
Arguments e {A} v.

(** The GDB value of a source location range. *)
Record SlocRangeValue : Type := mkSlocRangeValue {
  start_line : Z;
  start_column : Z;
  end_line : Z;
  end_column : Z
}.

Section Handlers.

(** The GDB value of a token kind, with its display text. *)
Variable Kind : Type.
Variable Kind_str : Kind -> string.

(** The GDB value of a token. *)
Record TokenValue : Type := mkTokenValue {
  kind_field : Kind;
  sloc_range_field : SlocRangeValue
}.

(** The GDB value of a trivia: the token is its field [t]. *)
Record TriviaValue : Type := mkTriviaValue { t : TokenValue }.

(** The GDB value of a token data handler. *)
Record TDHValue : Type := mkTDHValue {
  tokens : Vector TokenValue;
  trivias : Vector TriviaValue
}.

Record TDH : Type := mkTDH { value : TDHValue }.

Record Token : Type := mkToken {
  tdh : TDH;
  token_value : TokenValue;
  token_no : Z;
  trivia_no : Z
}.

Definition _vector_item {A : Type} (vector : Vector A) (index : Z)
  : result A :=
  let last := size vector in
  if (index <? 1)%Z || (last <? index)%Z
  then GdbError "Out of bounds index"
  else Ok (e vector index).

Definition token (self : TDH) (token_no : Z) : result Token :=
  match _vector_item (tokens (value self)) token_no with
  | Ok v => Ok (mkToken self v token_no 0)
  | GdbError msg => GdbError msg
  end.

Definition trivia (self : TDH) (token_no trivia_no : Z) : result Token :=
  match _vector_item (trivias (value self)) trivia_no with
  | Ok v => Ok (mkToken self (t v) token_no trivia_no)
  | GdbError msg => GdbError msg
  end.

(** [trivia_no] is used as a condition: zero is false. *)
Definition get (self : TDH) (token_no trivia_no : Z) : result Token :=
  if negb (trivia_no =? 0)%Z then trivia self token_no trivia_no
  else token self token_no.

Definition kind (self : Token) : Kind := kind_field (token_value self).

Record Sloc : Type := mkSloc { line : Z; column : Z }.

Definition Sloc_repr (self : Sloc) : string :=
  Py.str_int (line self) ++ ":" ++ Py.str_int (column self).

Record SlocRange : Type := mkSlocRange { start : Sloc; end_ : Sloc }.

(** [SlocRange.__init__]. *)
Definition SlocRange_init (v : SlocRangeValue) : SlocRange :=
  mkSlocRange (mkSloc (start_line v) (start_column v))
              (mkSloc (end_line v) (end_column v)).

Definition SlocRange_repr (self : SlocRange) : string :=
  Sloc_repr (start self) ++ "-" ++ Sloc_repr (end_ self).

Definition sloc_range (self : Token) : SlocRange :=
  SlocRange_init (sloc_range_field (token_value self)).

Definition Token_repr (self : Token) : string :=
  "<Token " ++ Kind_str (kind self) ++ " " ++ Py.str_int (token_no self)
    ++ "/" ++ Py.str_int (trivia_no self) ++ " at "
    ++ SlocRange_repr (sloc_range self) ++ ">".

End Handlers.

Arguments token {Kind} self token_no.
Arguments trivia {Kind} self token_no trivia_no.
Arguments get {Kind} self token_no trivia_no.
Arguments kind {Kind} self.
Arguments sloc_range {Kind} self.
Arguments Token_repr {Kind} Kind_str self.

End TDH.

(** ** What the commands are expected to produce

    These definitions follow the description of the commands rather than
    their loops; the theorems below relate the two. *)

Section Specification.

Context {L : Location} {G : Gdb}.

(** The world after some more effects, the inferior left alone. *)
Definition logged (w : World) (effects : list Effect) : World :=
  mkWorld (host w) (log w ++ effects).

(** *** State printer *)

(** The lines of the completed expressions, in order. *)
Definition done_lines (self : StatePrinter) (es : list ExpressionEvaluation)
  : list string :=
  flat_map (fun e => match ee_status e with
                     | Done result_var => [done_line self e result_var]
                     | _ => []
                     end) es.

(** The in-progress expression of a scope: the last started one. *)
Definition in_progress (es : list ExpressionEvaluation)
  : option ExpressionEvaluation :=
  find is_started (rev es).

Definition in_progress_lines (cur : option ExpressionEvaluation)
  : list string :=
  match cur with
  | None => []
  | Some e =>
      ("Currently evaluating " ++ ee_expr_repr e)
        :: match ee_dsl_sloc e with
           | Some sloc => ["from " ++ DSLLocation_str sloc]
           | None => []
           end
  end.

(** The printed items of a scope: bindings, completed expressions, then
    the in-progress expression. *)
Definition scope_items (self : StatePrinter) (scope_state : ScopeState)
  : list string :=
  (map (binding_line self) (bindings scope_state)
     ++ done_lines self (values (expressions scope_state))
     ++ in_progress_lines (in_progress (values (expressions scope_state))))%list.

(** The items of a scope as they are described: a binding is
    [<source-name>[ (<storage-name>)] = <value>], a completed expression is
    [<expr-repr>[ (<storage-name>)] -> <value>]; [parenthetical] gives the
    optional part from the storage name. *)
Definition rendered_items (parenthetical : string -> string)
  (self : StatePrinter) (scope_state : ScopeState) : list string :=
  (map (fun b => (dsl_name b ++ parenthetical (gen_name b) ++ " = "
                    ++ value_image self (gen_name b))%string)
       (bindings scope_state)
     ++ flat_map (fun e => match ee_status e with
                           | Done result_var =>
                               [(ee_expr_repr e ++ parenthetical result_var
                                   ++ " -> "
                                   ++ value_image self result_var)%string]
                           | _ => []
                           end)
                 (values (expressions scope_state))
     ++ in_progress_lines (in_progress (values (expressions scope_state))))%list.

Definition no_storage_name (storage_name : string) : string := EmptyString.

Definition storage_name_in_parentheses (storage_name : string) : string :=
  " (" ++ storage_name ++ ")".

(** What a run of [print_info] calls prints for [items], given the content
    of the cell [is_first] before the first call. *)
Definition blank_before (is_first : bool) (items : list string) : list string :=
  match items with
  | [] => []
  | _ :: _ => if is_first then EmptyString :: items else items
  end.

Definition is_nil {A : Type} (l : list A) : bool :=
  match l with [] => true | _ :: _ => false end.

(** A blank line before the items of a scope that has any. *)
Definition with_leading_blank (items : list string) : list string :=
  match items with
  | [] => []
  | _ :: _ => EmptyString :: items
  end.

Definition state_lines (self : StatePrinter) (state : State) : list string :=
  ("Running " ++ name (property state))
    :: ("from " ++ DSLLocation_str (prop_dsl_sloc (property state)))
    :: flat_map (fun scope_state =>
                   with_leading_blank (scope_items self scope_state))
                (scopes state).

(** *** State command flags *)

Definition valid_flag (c : ascii) : bool :=
  Ascii.eqb c "f" || Ascii.eqb c "s".

(** The first character of a flag string that is neither [f] nor [s]. *)
Fixpoint first_invalid_flag (flags : string) : option ascii :=
  match flags with
  | EmptyString => None
  | String c flags' =>
      if valid_flag c then first_invalid_flag flags' else Some c
  end.

(** *** Breakpoints *)

(** A property matches a query when their lower-cased names are equal. *)
Definition name_matches (query : string) (prop : Property) : bool :=
  String.eqb (Py.lower (name prop)) (Py.lower query).

(** Every event of a scope tree, nested scopes flattened in place. *)
Fixpoint all_events (s : Scope) : list Event :=
  match s with
  | mkScope _ evs =>
      (fix flatten (es : list Event) : list Event :=
         match es with
         | [] => []
         | EvScope s' :: es' => (all_events s' ++ flatten es')%list
         | e :: es' => e :: flatten es'
         end) evs
  end.

(** The match an event stands for, if it is an expression start whose
    location matches the request. *)
Definition match_of_event (dsl_sloc : DSLLocation) (prop : Property)
  (e : Event) : list Match :=
  match e with
  | ExprStart _ _ (Some e_sloc) line_no =>
      if DSLLocation_matches e_sloc dsl_sloc
      then [mkMatch prop e_sloc line_no]
      else []
  | _ => []
  end.

Definition all_matches (dsl_sloc : DSLLocation) (props : list Property)
  : list Match :=
  flat_map (fun prop =>
              flat_map (match_of_event dsl_sloc prop)
                       (all_events (prop_scope prop))) props.

(** *** Step out *)

(** The generated lines of the completion events of an expression, in
    event order. *)
Definition done_line_nos (expr_id : Z) (es : list Event) : list Z :=
  flat_map (fun e => match e with
                     | ExprDone e_id line_no _ =>
                         if Z.eqb e_id expr_id then [line_no] else []
                     | _ => []
                     end) es.

(** The world once the inferior has been resumed with [command]. *)
Definition resumed (command : string) (w : World) : World :=
  mkWorld (execute command (host w)) (log w ++ [Execute command]).

Definition no_scopes_attribute : exn :=
  AttributeError "'NoneType' object has no attribute 'scopes'".

(** The diagnostic of a consistency check that failed after a step out. *)
Definition diagnostic (msg : string) : Effect :=
  Print ("ERROR: " ++ msg ++ ": something went wrong...").

(** No scope has a started expression. *)
Definition nothing_started (state : State) : bool :=
  forallb (fun scope_state =>
             forallb (fun e => negb (is_started e))
                     (values (expressions scope_state)))
          (scopes state).

End Specification.

(** ** A small debugging session

    The scenario of a property [P] whose only scope binds [x] to [X_1] and
    evaluates [x + 1] between the generated lines 10 and 12. *)

Module Demo.

Local Open Scope Z_scope.

Definition parse (s : string) : outcome (string * Z) :=
  match String.index 0 ":" s with
  | None => Raised (ValueError "need more than 1 value to unpack")
  | Some i =>
      match NilZero.int_of_string
              (String.substring (S i) (String.length s - S i)%nat s) with
      | Some n => Returned (String.substring 0 i s, Z.of_int n)
      | None => Raised (ValueError "invalid literal for int() with base 10")
      end
  end.

Definition location : Location := {|
  DSLLocation := string * Z;
  DSLLocation_str := fun l => fst l ++ ":" ++ Py.str_int (snd l);
  DSLLocation_matches :=
    fun l query => String.eqb (fst l) (fst query) && Z.eqb (snd l) (snd query);
  DSLLocation_parse := parse
|}.

Definition sloc (file : string) (line : Z) : @DSLLocation location :=
  (file, line).

Definition long_text : string :=
  "0123456789012345678901234567890123456789012345678901234567890123456789".

(** The inferior is known by the generated line it is stopped at; resuming
    [until N] stops it at line [N]. *)
Definition gdb : @Gdb location := {|
  Frame := Z;
  read_var := fun _ v =>
    if String.eqb v "x_1" then "41"
    else if String.eqb v "r_1" then "42"
    else if String.eqb v "big" then long_text
    else "0";
  Host := Z;
  selected_frame := fun h => h;
  execute := fun command h =>
    if String.prefix "until " command then
      match NilZero.int_of_string
              (String.substring 6 (String.length command - 6)%nat command) with
      | Some n => Z.of_int n
      | None => h
      end
    else h;
  Property_ne := fun p q => negb (String.eqb (@name location p) (@name location q));
  ExpressionEvaluation_str := fun e => @ee_expr_repr location e
|}.

Definition x_binding : Binding := mkBinding "x" "X_1".

Definition scope1 : @Scope location :=
  mkScope (mkLineRange 9 13)
    [EvBinding x_binding;
     ExprStart 1 "x + 1" (Some (sloc "spec.py" 128)) 10;
     ExprDone 1 12 "R_1"].

Definition P : @Property location :=
  mkProperty "Node.p_prop" (sloc "spec.py" 127)
    (mkScope (mkLineRange 5 14) [EvScope scope1]) [scope1].

(** A property implemented natively: no inner scope. *)
Definition Q : @Property location :=
  mkProperty "Node.p_ext" (sloc "spec.py" 140) (mkScope (mkLineRange 20 21) []) [].

(** A second property with an expression on the line [P] has one on. *)
Definition R : @Property location :=
  mkProperty "Node.p_other" (sloc "spec.py" 128)
    (mkScope (mkLineRange 30 40)
       [ExprStart 7 "y" (Some (sloc "spec.py" 128)) 31; ExprDone 7 32 "R_7"]) [].

Definition info : @DebugInfo location := mkDebugInfo "impl.adb" [P; Q].

Definition ambiguous_info : @DebugInfo location :=
  mkDebugInfo "impl.adb" [P; Q; R].

Definition expr1 (status : @EvalStatus) : @ExpressionEvaluation location :=
  mkExpressionEvaluation 1 "x + 1" (Some (sloc "spec.py" 128)) status.

Definition state_at (status : @EvalStatus) : @State location :=
  mkState P [mkScopeState scope1 [x_binding] [(1, expr1 status)]].

(** Before line 10 nothing is started, up to line 11 [x + 1] is being
    evaluated, at line 12 it is done; elsewhere the frame is not in a
    property. *)
Definition decode (frame : Z) : option (@State location) :=
  if (frame =? 9) then Some (state_at NotStarted)
  else if (frame =? 10) || (frame =? 11) then Some (state_at Started)
  else if (frame =? 12) then Some (state_at (Done "R_1"))
  else None.

Definition context : @Context location gdb :=
  @mkContext location gdb info decode.

(** A session in which the inferior, once resumed, leaves the property: the
    frame reached at line 12 decodes to nothing. *)
Definition lost_decode (frame : Z) : option (@State location) :=
  if (frame =? 12) then None else decode frame.

Definition lost_context : @Context location gdb :=
  @mkContext location gdb info lost_decode.

(** A scope in which the completion of expression 1 is recorded twice. *)
Definition scope2 : @Scope location :=
  mkScope (mkLineRange 9 20)
    [ExprStart 1 "x + 1" (Some (sloc "spec.py" 128)) 10;
     ExprDone 1 12 "R_1";
     ExprDone 2 13 "R_2";
     ExprDone 1 15 "R_1"].

Definition twice_decode (frame : Z) : option (@State location) :=
  if (frame =? 11)
  then Some (mkState P [mkScopeState scope2 [] [(1, expr1 Started)]])
  else if (frame =? 15)
  then Some (mkState P [mkScopeState scope2 [] [(1, expr1 (Done "R_1"))]])
  else None.

Definition twice_context : @Context location gdb :=
  @mkContext location gdb info twice_decode.

Definition world_at (line : Z) : @World location gdb :=
  @mkWorld location gdb line [].

Definition printer (ellipsis locs : bool) (line : Z) : @StatePrinter location gdb :=
  @mkStatePrinter location gdb context line (decode line) ellipsis locs.

End Demo.

(** ** More of the small session *)

Module Demo2.

Import Demo.

Local Open Scope Z_scope.

(** A scope in which the completion of expression 1 was never recorded. *)
Definition scope3 : @Scope location :=
  mkScope (mkLineRange 9 20)
    [ExprStart 1 "x + 1" (Some (sloc "spec.py" 128)) 10;
     ExprDone 2 13 "R_2"].

Definition unfinished_state : @State location :=
  mkState P [mkScopeState scope3 [] [(1, expr1 Started)]].

Definition unfinished_decode (frame : Z) : option (@State location) :=
  if (frame =? 11) then Some unfinished_state else None.

Definition unfinished_context : @Context location gdb :=
  @mkContext location gdb info unfinished_decode.

(** A handler of two tokens and one trivia; token kinds are known by their
    display text. *)
Definition token_at (i : Z) : TDH.TokenValue string :=
  TDH.mkTokenValue string
    (if (i =? 1) then "Identifier" else "Semicolon")
    (TDH.mkSlocRangeValue 1 i 1 (i + 1)).

Definition trivia_at (i : Z) : TDH.TriviaValue string :=
  TDH.mkTriviaValue string
    (TDH.mkTokenValue string "Whitespace" (TDH.mkSlocRangeValue 1 2 1 3)).

Definition handler : TDH.TDH string :=
  TDH.mkTDH string
    (TDH.mkTDHValue string (TDH.mkVector 2 token_at)
                    (TDH.mkVector 1 trivia_at)).

End Demo2.

(** * Properties of the commands *)

Example lower_mixed : Py.lower "MyNode.P_Prop" = "mynode.p_prop".
Proof. reflexivity. Qed.

Example str_int_128 : Py.str_int 128 = "128".
Proof. reflexivity. Qed.

Example strip_spaces : Py.strip "  spec.py:12 " = "spec.py:12".
Proof. reflexivity. Qed.

Example repr_char_x : Py.repr_char "x" = "'x'".
Proof. reflexivity. Qed.

(** ** The session monad *)

Section SessionFacts.

Context {L : Location} {G : Gdb}.

Lemma logged_nil (w : World) : logged w [] = w.
Proof. destruct w as [h l]. unfold logged. simpl. now rewrite app_nil_r. Qed.

Lemma logged_logged (w : World) (a b : list Effect) :
  logged (logged w a) b = logged w (a ++ b).
Proof. unfold logged. simpl. now rewrite app_assoc. Qed.

Lemma print_logged (line : string) (w : World) :
  print line w = (Returned tt, logged w [Print line]).
Proof. reflexivity. Qed.

Lemma bind_returned {A B : Type} (c : Cmd A) (k : A -> Cmd B)
  (w w' : World) (a : A) :
  c w = (Returned a, w') -> bind c k w = k a w'.
Proof. intros H. unfold bind. now rewrite H. Qed.

(** A loop whose body only logs, logs the concatenation. *)
Lemma for_each_logged {A : Type} (body : A -> Cmd unit)
  (f : A -> list Effect) (xs : list A) :
  (forall x w, body x w = (Returned tt, logged w (f x))) ->
  forall w, for_each body xs w = (Returned tt, logged w (flat_map f xs)).
Proof.
  intros Hbody. induction xs as [|x xs IH]; intros w; simpl.
  - unfold ret. now rewrite logged_nil.
  - rewrite (bind_returned _ _ _ _ _ (Hbody x w)).
    rewrite IH. now rewrite logged_logged.
Qed.

End SessionFacts.

(** ** The state printer *)

Section StatePrinterFacts.

Context {L : Location} {G : Gdb}.

Lemma print_info_logged (is_first : bool) (line : string) (w : World) :
  print_info is_first line w
  = (Returned false, logged w (map Print (blank_before is_first [line]))).
Proof.
  unfold print_info, bind, print, emit, ret, logged.
  destruct is_first; simpl; try reflexivity.
  now rewrite <- app_assoc.
Qed.

Lemma blank_before_false (items : list string) :
  blank_before false items = items.
Proof. now destruct items. Qed.

Lemma blank_before_app (is_first : bool) (a b : list string) :
  blank_before is_first (a ++ b)
  = (blank_before is_first a ++ blank_before (is_first && is_nil a) b)%list.
Proof.
  destruct a as [|x a]; simpl.
  - now rewrite andb_true_r.
  - rewrite andb_false_r, blank_before_false. now destruct is_first.
Qed.

Lemma is_nil_map {A B : Type} (f : A -> B) (l : list A) :
  is_nil (map f l) = is_nil l.
Proof. now destruct l. Qed.

Lemma run_bindings_logged (self : StatePrinter) (bs : list Binding) :
  forall (is_first : bool) (w : World),
    run_bindings self bs is_first w
    = (Returned (is_first && is_nil bs),
       logged w (map Print (blank_before is_first
                              (map (binding_line self) bs)))).
Proof.
  induction bs as [|b bs IH]; intros is_first w; simpl.
  - unfold ret. now rewrite andb_true_r, logged_nil.
  - rewrite (bind_returned _ _ _ _ _ (print_info_logged _ _ _)).
    rewrite IH, logged_logged, blank_before_false, andb_false_r.
    rewrite <- map_app. do 3 f_equal.
    now destruct is_first.
Qed.

Lemma find_last_app {A : Type} (p : A -> bool) (l : list A) (x : A) :
  find p (rev (x :: l))
  = match find p (rev l) with
    | Some y => Some y
    | None => if p x then Some x else None
    end.
Proof.
  simpl. induction (rev l) as [|y r IH]; simpl.
  - reflexivity.
  - destruct (p y); [reflexivity | exact IH].
Qed.

Lemma run_expressions_logged (self : StatePrinter)
  (es : list ExpressionEvaluation) :
  forall (is_first : bool) (last_started : option ExpressionEvaluation)
         (w : World),
    run_expressions self es is_first last_started w
    = (Returned (is_first && is_nil (done_lines self es),
                 match in_progress es with
                 | Some e => Some e
                 | None => last_started
                 end),
       logged w (map Print (blank_before is_first (done_lines self es)))).
Proof.
  unfold in_progress.
  induction es as [|e es IH]; intros is_first last_started w.
  - simpl. unfold ret. now rewrite andb_true_r, logged_nil.
  - rewrite find_last_app. unfold is_started at 2.
    cbn [run_expressions done_lines flat_map].
    destruct (ee_status e) as [| |result_var] eqn:Hst.
    + rewrite IH. simpl. now destruct (find is_started (rev es)).
    + rewrite IH. simpl. now destruct (find is_started (rev es)).
    + rewrite (bind_returned _ _ _ _ _ (print_info_logged _ _ _)).
      rewrite IH, logged_logged, blank_before_false, andb_false_r.
      rewrite <- map_app. do 3 f_equal.
      * now destruct (find is_started (rev es)).
      * now destruct is_first.
Qed.

End StatePrinterFacts.

(** ** Strings *)

Lemma append_not_empty (a b : string) : b <> EmptyString -> a ++ b <> EmptyString.
Proof. destruct a; simpl; [trivial | discriminate]. Qed.

Lemma take_is_prefix (n : nat) :
  forall s : string,
    (n <= String.length s)%nat ->
    String.length (Py.take n s) = n /\ exists rest, s = Py.take n s ++ rest.
Proof.
  unfold Py.take. induction n as [|n IH]; intros s Hlen.
  - destruct s; simpl; (split; [reflexivity | eexists; reflexivity]).
  - destruct s as [|c s]; simpl in *; [lia|].
    destruct (IH s ltac:(lia)) as [Hl [rest Hr]].
    split; [now rewrite Hl|]. exists rest. now rewrite <- Hr.
Qed.

Section StatePrinterTheorems.

Context {L : Location} {G : Gdb}.

Lemma run_scope_logged (self : StatePrinter) (scope_state : ScopeState)
  (w : World) :
  run_scope self scope_state w
  = (Returned tt,
     logged w (map Print (with_leading_blank (scope_items self scope_state)))).
Proof.
  unfold run_scope.
  rewrite (bind_returned _ _ _ _ _ (run_bindings_logged _ _ _ _)).
  rewrite (bind_returned _ _ _ _ _ (run_expressions_logged _ _ _ _ _)).
  cbn [fst snd]. rewrite andb_true_l.
  change (with_leading_blank (scope_items self scope_state))
    with (blank_before true (scope_items self scope_state)).
  unfold scope_items. rewrite !blank_before_app, andb_true_l, !map_app.
  rewrite is_nil_map.
  set (bs := map (binding_line self) (bindings scope_state)).
  set (ds := done_lines self (values (expressions scope_state))).
  set (first := is_nil (bindings scope_state) && is_nil ds).
  destruct (in_progress (values (expressions scope_state))) as [e|].
  - rewrite (bind_returned _ _ _ _ _ (print_info_logged _ _ _)).
    cbn [in_progress_lines].
    destruct (ee_dsl_sloc e) as [sloc|].
    + rewrite (bind_returned _ _ _ _ _ (print_info_logged _ _ _)).
      unfold ret. rewrite !logged_logged. do 2 f_equal.
      rewrite <- ?app_assoc. do 2 f_equal.
      now destruct first.
    + unfold ret. rewrite !logged_logged.
      now rewrite <- ?app_assoc.
  - unfold ret. rewrite !logged_logged. simpl. now rewrite ?app_nil_r.
Qed.

Lemma StatePrinter_run_logged (self : StatePrinter) (state : State)
  (w : World) :
  sp_state self = Some state ->
  StatePrinter_run self w
  = (Returned tt, logged w (map Print (state_lines self state))).
Proof.
  intros Hst. unfold StatePrinter_run. rewrite Hst.
  rewrite (bind_returned _ _ _ _ _ (print_logged _ _)).
  rewrite (bind_returned _ _ _ _ _ (print_logged _ _)).
  rewrite (for_each_logged _
             (fun ss => map Print (with_leading_blank (scope_items self ss)))).
  - rewrite !logged_logged. unfold state_lines. do 2 f_equal.
    simpl. do 2 f_equal.
    induction (scopes state) as [|ss l IH]; simpl; [reflexivity|].
    now rewrite map_app, IH.
  - intros ss w'. apply run_scope_logged.
Qed.

Lemma scope_items_not_blank (self : StatePrinter) (scope_state : ScopeState) :
  ~ In EmptyString (scope_items self scope_state).
Proof.
  unfold scope_items. rewrite !in_app_iff. intros [H | [H | H]].
  - apply in_map_iff in H. destruct H as [b [Hb _]]. revert Hb.
    unfold binding_line.
    apply append_not_empty, append_not_empty. simpl. discriminate.
  - unfold done_lines in H. apply in_flat_map in H.
    destruct H as [e [_ He]]. destruct (ee_status e); simpl in He;
      try contradiction.
    destruct He as [He | []]. revert He. unfold done_line.
    apply append_not_empty, append_not_empty. simpl. discriminate.
  - destruct (in_progress (values (expressions scope_state))) as [e|];
      simpl in H; [|contradiction].
    destruct H as [H | H]; [discriminate|].
    destruct (ee_dsl_sloc e); simpl in H; [|contradiction].
    destruct H as [H | []]. discriminate.
Qed.

Lemma rendered_items_ext (p q : string -> string) (self : StatePrinter)
  (scope_state : ScopeState) :
  (forall v, p v = q v) ->
  rendered_items p self scope_state = rendered_items q self scope_state.
Proof.
  intros Hpq. unfold rendered_items. f_equal; [|f_equal].
  - apply map_ext. intros b. now rewrite Hpq.
  - apply flat_map_ext. intros e. destruct (ee_status e); try reflexivity.
    now rewrite Hpq.
Qed.

Lemma scope_items_rendered (self : StatePrinter) (scope_state : ScopeState) :
  scope_items self scope_state
  = rendered_items (loc_image self) self scope_state.
Proof. reflexivity. Qed.

(** C5: the image of a value is its display text, cut to its first 50
    characters and followed by an ellipsis when [with_ellipsis] is set and
    the text is longer than 50 characters; it is the display text itself
    when the text has at most 50 characters, and whenever [with_ellipsis]
    is not set. *)
Theorem value_image_truncation (self : StatePrinter) (var_name : string) :
  let text := read_var (sp_frame self) (Py.lower var_name) in
  (with_ellipsis self = true -> (50 < String.length text)%nat ->
   value_image self var_name = Py.take 50 text ++ "..."
   /\ String.length (Py.take 50 text) = 50%nat
   /\ exists rest, text = Py.take 50 text ++ rest)
  /\ (with_ellipsis self = true -> (String.length text <= 50)%nat ->
      value_image self var_name = text)
  /\ (with_ellipsis self = false -> value_image self var_name = text).
Proof.
  intros text. unfold value_image, ellipsis_limit. fold text.
  repeat split.
  - rewrite H. simpl.
    destruct (Nat.ltb_spec 50 (String.length text)); [reflexivity | lia].
  - apply take_is_prefix. lia.
  - apply take_is_prefix. lia.
  - intros He Hlen. rewrite He. simpl.
    destruct (Nat.ltb_spec 50 (String.length text)); [lia | reflexivity].
  - intros He. now rewrite He.
Qed.

(** C6: when the storage names are not asked for, no binding line and no
    completed-expression line printed for a state has a storage-name
    parenthetical; when they are asked for, every such line has it, between
    the name (or the expression) and the value. *)
Theorem storage_name_parenthetical (self : StatePrinter) (state : State)
  (w : World) :
  sp_state self = Some state ->
  let header :=
    [Print ("Running " ++ name (property state));
     Print ("from " ++ DSLLocation_str (prop_dsl_sloc (property state)))] in
  (with_locs self = false ->
   StatePrinter_run self w
   = (Returned tt,
      logged w
        (header ++
         map Print
           (flat_map (fun scope_state =>
                        with_leading_blank
                          (rendered_items no_storage_name self scope_state))
                     (scopes state)))))
  /\ (with_locs self = true ->
      StatePrinter_run self w
      = (Returned tt,
         logged w
           (header ++
            map Print
              (flat_map (fun scope_state =>
                           with_leading_blank
                             (rendered_items storage_name_in_parentheses
                                             self scope_state))
                        (scopes state))))).
Proof.
  intros Hst header.
  split; intros Hlocs; rewrite (StatePrinter_run_logged self state w Hst);
    unfold state_lines, header; simpl; do 5 f_equal;
    apply flat_map_ext; intros ss; rewrite scope_items_rendered;
    f_equal; apply rendered_items_ext; intros v;
    unfold loc_image; now rewrite Hlocs.
Qed.

(** C7: the lines printed for a state are the two header lines followed, for
    each scope in order, by nothing when the scope has no item to print,
    and otherwise by one blank line and then the items of the scope, none
    of which is blank. *)
Theorem one_blank_line_per_printed_scope (self : StatePrinter) (state : State)
  (w : World) :
  sp_state self = Some state ->
  let block scope_state := with_leading_blank (scope_items self scope_state) in
  StatePrinter_run self w
  = (Returned tt,
     logged w
       (map Print
          (("Running " ++ name (property state))
             :: ("from " ++ DSLLocation_str (prop_dsl_sloc (property state)))
             :: flat_map block (scopes state))))
  /\ forall scope_state,
      In scope_state (scopes state) ->
      (scope_items self scope_state = [] -> block scope_state = [])
      /\ (forall item items,
             scope_items self scope_state = item :: items ->
             block scope_state = EmptyString :: item :: items)
      /\ ~ In EmptyString (scope_items self scope_state)
      /\ count_occ string_dec (block scope_state) EmptyString
         = if is_nil (scope_items self scope_state) then 0%nat else 1%nat.
Proof.
  intros Hst block. split.
  - apply (StatePrinter_run_logged self state w Hst).
  - intros ss _. unfold block.
    pose proof (scope_items_not_blank self ss) as Hnb.
    repeat split.
    + intros H. now rewrite H.
    + intros item items H. now rewrite H.
    + exact Hnb.
    + apply (count_occ_not_In string_dec) in Hnb.
      destruct (scope_items self ss) as [|item items]; [reflexivity|].
      cbn [with_leading_blank is_nil]. rewrite count_occ_cons_eq by reflexivity.
      now rewrite Hnb.
Qed.

End StatePrinterTheorems.

(** ** The state command *)

Section StateCommandTheorems.

Context {L : Location} {G : Gdb}.

Lemma StatePrinter_init_returns (context : Context) (w : World) :
  StatePrinter_init context w
  = (Returned (mkStatePrinter context (selected_frame (host w))
                 (State_decode context (selected_frame (host w))) true false),
     w).
Proof. reflexivity. Qed.

Lemma invoke_flags_invalid (cs : string) (c : ascii) :
  first_invalid_flag cs = Some c ->
  forall (printer : StatePrinter) (w : World),
    invoke_flags cs printer w
    = (Returned None, logged w [Print ("Invalid flag: " ++ Py.repr_char c)]).
Proof.
  induction cs as [|d cs IH]; simpl; [discriminate|].
  unfold valid_flag. intros H printer w.
  destruct (Ascii.eqb d "f"); simpl in H; [now apply IH|].
  destruct (Ascii.eqb d "s"); simpl in H; [now apply IH|].
  injection H as ->. reflexivity.
Qed.

Lemma first_invalid_flag_some (cs : string) :
  (exists c, In c (list_ascii_of_string cs) /\ c <> "f"%char /\ c <> "s"%char) ->
  exists c, first_invalid_flag cs = Some c
            /\ In c (list_ascii_of_string cs)
            /\ c <> "f"%char /\ c <> "s"%char.
Proof.
  induction cs as [|d cs IH]; intros [c [Hin [Hf Hs]]]; simpl in *.
  - contradiction.
  - unfold valid_flag.
    destruct (Ascii.eqb_spec d "f") as [->|Hdf].
    + destruct Hin as [<-|Hin]; [congruence|].
      destruct IH as [c' [H1 [H2 H3]]]; [now exists c|].
      exists c'. simpl. auto.
    + destruct (Ascii.eqb_spec d "s") as [->|Hds].
      * destruct Hin as [<-|Hin]; [congruence|].
        destruct IH as [c' [H1 [H2 H3]]]; [now exists c|].
        exists c'. simpl. auto.
      * exists d. simpl. auto.
Qed.

(** C8: a non-empty argument that does not start with a slash is answered
    by [Invalid argument], and one whose flags hold a character other than
    [f] and [s] by [Invalid flag] for such a character; in both cases
    nothing else is printed or done.  [/f] runs the printer without
    ellipsis, [/s] runs it with the storage names. *)
Theorem StateCommand_flags (context : Context) (arg : string) (w : World) :
  let frame := selected_frame (host w) in
  let state := State_decode context frame in
  (arg <> EmptyString -> Py.startswith arg "/" = false ->
   StateCommand_invoke context arg w
   = (Returned tt, logged w [Print "Invalid argument"]))
  /\ (Py.startswith arg "/" = true ->
      (exists c, In c (list_ascii_of_string (Py.tail arg))
                 /\ c <> "f"%char /\ c <> "s"%char) ->
      exists c, In c (list_ascii_of_string (Py.tail arg))
                /\ c <> "f"%char /\ c <> "s"%char
                /\ StateCommand_invoke context arg w
                   = (Returned tt,
                      logged w [Print ("Invalid flag: " ++ Py.repr_char c)]))
  /\ StateCommand_invoke context "/f" w
     = StatePrinter_run (mkStatePrinter context frame state false false) w
  /\ StateCommand_invoke context "/s" w
     = StatePrinter_run (mkStatePrinter context frame state true true) w.
Proof.
  intros frame state. repeat split.
  - intros Hne Hstart. unfold StateCommand_invoke.
    rewrite (bind_returned _ _ _ _ _ (StatePrinter_init_returns _ _)).
    destruct arg as [|a arg]; [congruence|]. change (Py.truthy (String a arg)) with true. cbv iota.
    now rewrite Hstart.
  - intros Hstart Hbad.
    destruct (first_invalid_flag_some _ Hbad) as [c [Hc [Hin [Hf Hs]]]].
    exists c. repeat split; try assumption.
    unfold StateCommand_invoke.
    rewrite (bind_returned _ _ _ _ _ (StatePrinter_init_returns _ _)).
    destruct arg as [|a arg]; [discriminate|]. change (Py.truthy (String a arg)) with true. cbv iota.
    rewrite Hstart. cbn [negb].
    now rewrite (bind_returned _ _ _ _ _ (invoke_flags_invalid _ _ Hc _ _)).
Qed.

(** C9: the argument made of a slash alone is accepted; the state is
    printed as it is without any argument, values cut with an ellipsis and
    storage names left out. *)
Theorem StateCommand_lone_slash (context : Context) (w : World) :
  StateCommand_invoke context "/" w = StateCommand_invoke context EmptyString w
  /\ StateCommand_invoke context "/" w
     = StatePrinter_run
         (mkStatePrinter context (selected_frame (host w))
            (State_decode context (selected_frame (host w))) true false) w.
Proof. split; reflexivity. Qed.

End StateCommandTheorems.

(** ** The break command *)

Section BreakCommandTheorems.

Context {L : Location} {G : Gdb}.

Lemma find_property_none (query : string) (props : list Property) :
  (forall prop, In prop props -> name_matches query prop = false) ->
  find_property (Py.lower query) props = None.
Proof.
  induction props as [|p props IH]; intros Hnone; simpl; [reflexivity|].
  pose proof (Hnone p (or_introl eq_refl)) as Hp. unfold name_matches in Hp.
  rewrite Hp. apply IH. intros q Hq. apply Hnone. now right.
Qed.

Lemma find_property_first (query : string) (before : list Property)
  (prop : Property) (after : list Property) :
  (forall p, In p before -> name_matches query p = false) ->
  name_matches query prop = true ->
  find_property (Py.lower query) (before ++ prop :: after) = Some prop.
Proof.
  intros Hbefore Hprop.
  induction before as [|p before IH]; simpl.
  - unfold name_matches in Hprop. now rewrite Hprop.
  - pose proof (Hbefore p (or_introl eq_refl)) as Hp.
    unfold name_matches in Hp. rewrite Hp.
    apply IH. intros q Hq. apply Hbefore. now right.
Qed.

Lemma truthy_false_iff (s : string) : Py.truthy s = false <-> s = EmptyString.
Proof. destruct s; simpl; split; congruence. Qed.

(** C2: a request by name whose lower-cased query is empty, or that no
    property matches, or whose matching property has no inner scope, is
    answered by the message for that case and sets no breakpoint;
    otherwise one breakpoint is set in the generated source file, on the
    first line of the first inner scope of the matching property.  The
    matching property is the first one whose lower-cased name is the
    lower-cased query, hence the only one when a single property
    matches. *)
Theorem break_on_property_outcomes (context : Context) (qualname : string)
  (w : World) :
  let props := properties (debug_info context) in
  (Py.lower qualname = EmptyString ->
   break_on_property context qualname w
   = (Returned tt, logged w [Print "Missing breakpoint specification"]))
  /\ (Py.lower qualname <> EmptyString ->
      (forall prop, In prop props -> name_matches qualname prop = false) ->
      break_on_property context qualname w
      = (Returned tt, logged w [Print ("No such property: " ++ qualname)]))
  /\ (forall before prop after,
         Py.lower qualname <> EmptyString ->
         props = (before ++ prop :: after)%list ->
         (forall p, In p before -> name_matches qualname p = false) ->
         name_matches qualname prop = true ->
         (subscopes prop = [] ->
          break_on_property context qualname w
          = (Returned tt, logged w [Print (name prop ++ " has no code")]))
         /\ (forall scope0 others,
                subscopes prop = scope0 :: others ->
                break_on_property context qualname w
                = (Returned tt,
                   logged w
                     [Breakpoint
                        (filename (debug_info context) ++ ":"
                           ++ Py.str_int (first_line (line_range scope0)))]))).
Proof.
  intros props. unfold break_on_property. split; [|split].
  - intros Hempty. now rewrite Hempty.
  - intros Hne Hnone.
    destruct (Py.truthy (Py.lower qualname)) eqn:Ht;
      [|now apply truthy_false_iff in Ht].
    cbn [negb]. fold props. now rewrite (find_property_none _ _ Hnone).
  - intros before prop after Hne Hprops Hbefore Hprop.
    destruct (Py.truthy (Py.lower qualname)) eqn:Ht;
      [|now apply truthy_false_iff in Ht].
    cbn [negb]. fold props. rewrite Hprops.
    rewrite (find_property_first _ _ _ _ Hbefore Hprop). split.
    + intros Hsub. now rewrite Hsub.
    + intros scope0 others Hsub. now rewrite Hsub.
Qed.

(** The accumulating traversal of a scope appends the matches of its
    events, nested scopes included, in order. *)
Lemma process_scope_appends (dsl_sloc : DSLLocation) (prop : Property) :
  forall (s : Scope) (matches : list Match),
    process_scope dsl_sloc prop s matches
    = (matches ++ flat_map (match_of_event dsl_sloc prop) (all_events s))%list.
Proof.
  fix IH 1. intros [r evs] matches. cbn [process_scope all_events].
  revert matches.
  induction evs as [|e evs IHevs]; intros matches.
  - simpl. now rewrite app_nil_r.
  - destruct e as [b | e_id e_repr [e_sloc|] line_no | e_id line_no rv | s'].
    + rewrite IHevs. reflexivity.
    + rewrite IHevs. cbn [flat_map match_of_event].
      destruct (DSLLocation_matches e_sloc dsl_sloc).
      * now rewrite <- app_assoc.
      * reflexivity.
    + rewrite IHevs. reflexivity.
    + rewrite IHevs. reflexivity.
    + rewrite IHevs, (IH s'), flat_map_app. now rewrite <- app_assoc.
Qed.

Lemma process_properties_all_matches (dsl_sloc : DSLLocation)
  (props : list Property) :
  forall matches,
    process_properties dsl_sloc props matches
    = (matches ++ all_matches dsl_sloc props)%list.
Proof.
  induction props as [|p props IH]; intros matches; simpl.
  - now rewrite app_nil_r.
  - rewrite IH, process_scope_appends. now rewrite <- app_assoc.
Qed.

End BreakCommandTheorems.

Section BreakOnLocationTheorems.

Context {L : Location} {G : Gdb}.

(** The matches are exactly the expression starts, anywhere in the scope
    tree of a property, whose location matches the request. *)
Lemma in_all_matches (dsl_sloc : DSLLocation) (props : list Property)
  (m : Match) :
  In m (all_matches dsl_sloc props)
  <-> exists prop e_id e_repr e_sloc line_no,
        In prop props
        /\ In (ExprStart e_id e_repr (Some e_sloc) line_no)
              (all_events (prop_scope prop))
        /\ DSLLocation_matches e_sloc dsl_sloc = true
        /\ m = mkMatch prop e_sloc line_no.
Proof.
  unfold all_matches. rewrite in_flat_map. split.
  - intros [prop [Hprop Hm]]. apply in_flat_map in Hm.
    destruct Hm as [e [He Hm]].
    destruct e as [b | e_id e_repr [e_sloc|] line_no | e_id line_no rv | s'];
      simpl in Hm; try contradiction.
    destruct (DSLLocation_matches e_sloc dsl_sloc) eqn:Hmatch;
      simpl in Hm; [|contradiction].
    destruct Hm as [<- | []].
    exists prop, e_id, e_repr, e_sloc, line_no. auto.
  - intros [prop [e_id [e_repr [e_sloc [line_no [Hprop [He [Hmatch ->]]]]]]]].
    exists prop. split; [assumption|]. apply in_flat_map.
    eexists. split; [exact He|]. simpl. rewrite Hmatch. now left.
Qed.

(** C3: the search collects, over the scope trees of all the properties,
    the expression starts whose location matches the request.  With one
    match a breakpoint is set on its generated line; with none, [No match]
    is printed; with two or more, [Multiple matches] is printed, followed
    by a line for each candidate with its property name and location; in
    the last two cases no breakpoint is set. *)
Theorem break_on_dsl_sloc_outcomes (context : Context) (request : string)
  (dsl_sloc : DSLLocation) (w : World) :
  DSLLocation_parse request = Returned dsl_sloc ->
  let matches := all_matches dsl_sloc (properties (debug_info context)) in
  (matches = [] ->
   break_on_dsl_sloc context request w
   = (Returned tt,
      logged w [Print ("No match for " ++ DSLLocation_str dsl_sloc)]))
  /\ (forall m,
         matches = [m] ->
         break_on_dsl_sloc context request w
         = (Returned tt,
            logged w [Breakpoint (filename (debug_info context) ++ ":"
                                    ++ Py.str_int (m_line_no m))]))
  /\ ((2 <= List.length matches)%nat ->
      break_on_dsl_sloc context request w
      = (Returned tt,
         logged w
           (Print ("Multiple matches for " ++ DSLLocation_str dsl_sloc ++ ":")
              :: map (fun m =>
                        Print ("  In " ++ name (m_prop m) ++ ", "
                                 ++ DSLLocation_str (m_dsl_sloc m)))
                     matches))).
Proof.
  intros Hparse matches. unfold break_on_dsl_sloc. rewrite Hparse.
  rewrite process_properties_all_matches. cbn [app]. fold matches.
  repeat split.
  - intros Hm. now rewrite Hm.
  - intros m Hm. now rewrite Hm.
  - intros Hlen.
    destruct matches as [|m1 [|m2 others]] eqn:Hm; simpl in Hlen; try lia.
    cbn [List.length Nat.ltb Nat.leb].
    rewrite (bind_returned _ _ _ _ _ (print_logged _ _)).
    rewrite (for_each_logged _ (fun m => [Print (match_line m)])).
    + rewrite logged_logged. cbn [app].
      replace (flat_map (fun m => [Print (match_line m)]) (m1 :: m2 :: others))
        with (map (fun m => Print (match_line m)) (m1 :: m2 :: others));
        [reflexivity|].
      generalize (m1 :: m2 :: others). intros l.
      induction l as [|x l IHl]; simpl; [reflexivity | now rewrite IHl].
    + intros m w'. apply print_logged.
Qed.

End BreakOnLocationTheorems.

(** ** The out command *)

Section OutCommandTheorems.

Context {L : Location} {G : Gdb}.

Lemma find_started_none (es : list ExpressionEvaluation) :
  forallb (fun e => negb (is_started e)) es = true ->
  find is_started (rev es) = None.
Proof.
  intros Hall. destruct (find is_started (rev es)) as [e|] eqn:Hfind;
    [|reflexivity].
  apply find_some in Hfind. destruct Hfind as [Hin He].
  apply in_rev in Hin. rewrite forallb_forall in Hall.
  specialize (Hall e Hin). now rewrite He in Hall.
Qed.

Lemma lookup_current_expr_in_none (state_scopes : list ScopeState) :
  forallb (fun scope_state =>
             forallb (fun e => negb (is_started e))
                     (values (expressions scope_state)))
          state_scopes = true ->
  lookup_current_expr_in (rev state_scopes) = None.
Proof.
  intros Hall.
  assert (Hrev : forall ss, In ss (rev state_scopes) ->
                   find is_started (rev (values (expressions ss))) = None).
  { intros ss Hin. apply in_rev in Hin. rewrite forallb_forall in Hall.
    apply find_started_none. now apply Hall. }
  induction (rev state_scopes) as [|ss l IH]; simpl; [reflexivity|].
  rewrite (Hrev ss (or_introl eq_refl)). apply IH.
  intros ss' Hin. apply Hrev. now right.
Qed.

(** X18: with a decoded state in which no expression is started, stepping
    out only prints its fixed message. *)
Lemma step_out_nothing_started (context : Context) (state : State)
  (w : World) :
  State_decode context (selected_frame (host w)) = Some state ->
  nothing_started state = true ->
  OutCommand_invoke context EmptyString w
  = (Returned tt, logged w [Print "Not evaluating any expression currently"]).
Proof.
  intros Hdecode Hnone. unfold OutCommand_invoke. cbn [Py.truthy].
  unfold decode_state, lookup_current_expr, gdb_selected_frame, bind, ret.
  rewrite Hdecode. cbn [get_scopes]. unfold ret.
  now rewrite (lookup_current_expr_in_none _ Hnone).
Qed.

(** C1, where the code departs from it: when the selected frame decodes to
    no state, stepping out does not print [Not evaluating any expression
    currently]; looking for the current expression raises an attribute
    error, nothing having been printed or done. *)
Theorem step_out_without_state_raises (context : Context) (w : World) :
  State_decode context (selected_frame (host w)) = None ->
  OutCommand_invoke context EmptyString w = (Raised no_scopes_attribute, w).
Proof.
  intros Hdecode. unfold OutCommand_invoke. cbn [Py.truthy].
  unfold decode_state, lookup_current_expr, gdb_selected_frame, bind, ret.
  now rewrite Hdecode.
Qed.

Lemma find_until_line_no_last (expr_id : Z) (es : list Event) :
  forall until_line_no,
    find_until_line_no expr_id es until_line_no
    = match done_line_nos expr_id es with
      | [] => until_line_no
      | line_no :: line_nos => Some (last (line_no :: line_nos) 0%Z)
      end.
Proof.
  induction es as [|e es IH]; intros acc; [reflexivity|].
  destruct e as [b | e_id e_repr e_sloc line_no | e_id line_no rv | s'];
    try (simpl; apply IH).
  cbn [find_until_line_no done_line_nos flat_map].
  destruct (Z.eqb e_id expr_id).
  - rewrite IH. fold (done_line_nos expr_id es). cbn [app].
    now destruct (done_line_nos expr_id es).
  - rewrite IH. reflexivity.
Qed.

(** Up to the resumption: with an expression in progress whose completion
    is found at [until_line_no], stepping out resumes the inferior until
    that line and goes on with the frame then selected. *)
Lemma step_out_resumes (context : Context) (state : State)
  (scope_state : ScopeState) (current_expr : ExpressionEvaluation)
  (until_line_no : Z) (w : World) :
  State_decode context (selected_frame (host w)) = Some state ->
  lookup_current_expr_in (rev (scopes state))
  = Some (scope_state, current_expr) ->
  find_until_line_no (ee_expr_id current_expr) (events (scope scope_state))
                     None = Some until_line_no ->
  let w' := resumed ("until " ++ Py.str_int until_line_no) w in
  let frame := selected_frame (host w') in
  OutCommand_invoke context EmptyString w
  = (new_expr <- lookup_expr (State_decode context frame)
                             (ee_expr_id current_expr) ;;
     new_property <- get_property (State_decode context frame) ;;
     if Property_ne new_property (property state)
     then error "we landed in another property"
     else
       match new_expr with
       | None => error "cannot find back the same expression"
       | Some new_expr =>
           match ee_status new_expr with
           | Done result_var =>
               print (ee_expr_repr current_expr ++ " evaluated to: "
                        ++ read_var frame (Py.lower result_var))
           | _ => error "the expression is not evaluated yet"
           end
       end) w'.
Proof.
  intros Hdecode Hfound Huntil w' frame.
  unfold OutCommand_invoke. cbn [Py.truthy].
  unfold decode_state at 1. unfold lookup_current_expr, gdb_selected_frame.
  unfold bind at 1 2 3 4. unfold ret at 1 2.
  rewrite Hdecode. cbn [get_scopes]. unfold ret at 1. rewrite Hfound, Huntil.
  unfold bind at 1. unfold gdb_execute. fold (resumed ("until " ++ Py.str_int until_line_no) w).
  fold w'. unfold bind at 1. cbn [decode_state]. unfold bind at 1.
  unfold ret at 1. fold frame.
  unfold bind. destruct (lookup_expr (State_decode context frame)
                           (ee_expr_id current_expr) w') as [[new_expr|e] w''];
    [|reflexivity].
  destruct (get_property (State_decode context frame) w'') as [[p|e] w3];
    reflexivity.
Qed.

(** X17: after the resumption, with a state decoded again: each of the
    three checks that fails prints a diagnostic of its own and the command
    returns; when all hold, the value is printed. *)
Lemma step_out_checks (context : Context) (state new_state : State)
  (scope_state : ScopeState) (current_expr : ExpressionEvaluation)
  (until_line_no : Z) (w : World) :
  State_decode context (selected_frame (host w)) = Some state ->
  lookup_current_expr_in (rev (scopes state))
  = Some (scope_state, current_expr) ->
  find_until_line_no (ee_expr_id current_expr) (events (scope scope_state))
                     None = Some until_line_no ->
  let w' := resumed ("until " ++ Py.str_int until_line_no) w in
  let frame := selected_frame (host w') in
  let new_expr := lookup_expr_in (scopes new_state) (ee_expr_id current_expr) in
  State_decode context frame = Some new_state ->
  (Property_ne (property new_state) (property state) = true ->
   OutCommand_invoke context EmptyString w
   = (Returned tt, logged w' [diagnostic "we landed in another property"]))
  /\ (Property_ne (property new_state) (property state) = false ->
      new_expr = None ->
      OutCommand_invoke context EmptyString w
      = (Returned tt,
         logged w' [diagnostic "cannot find back the same expression"]))
  /\ (forall e,
         Property_ne (property new_state) (property state) = false ->
         new_expr = Some e -> is_done e = false ->
         OutCommand_invoke context EmptyString w
         = (Returned tt,
            logged w' [diagnostic "the expression is not evaluated yet"]))
  /\ (forall e result_var,
         Property_ne (property new_state) (property state) = false ->
         new_expr = Some e -> ee_status e = Done result_var ->
         OutCommand_invoke context EmptyString w
         = (Returned tt,
            logged w' [Print (ee_expr_repr current_expr ++ " evaluated to: "
                                ++ read_var frame (Py.lower result_var))])).
Proof.
  intros Hdecode Hfound Huntil w' frame new_expr Hnew.
  rewrite (step_out_resumes _ _ _ _ _ _ Hdecode Hfound Huntil).
  fold w' frame. rewrite Hnew.
  unfold lookup_expr, get_scopes, get_property, bind, ret.
  fold new_expr. repeat split.
  - intros Hne. now rewrite Hne.
  - intros Hne Hnone. now rewrite Hne, Hnone.
  - intros e Hne Hsome Hdone. rewrite Hne, Hsome.
    unfold is_done in Hdone. now destruct (ee_status e).
  - intros e result_var Hne Hsome Hdone. now rewrite Hne, Hsome, Hdone.
Qed.

(** C4, where the code departs from it: when the frame selected after the
    resumption decodes to no state, none of the three checks is reached
    and no diagnostic is printed; looking the expression up again raises
    an attribute error, the inferior having been resumed. *)
Theorem step_out_lost_state_raises (context : Context) (state : State)
  (scope_state : ScopeState) (current_expr : ExpressionEvaluation)
  (until_line_no : Z) (w : World) :
  State_decode context (selected_frame (host w)) = Some state ->
  lookup_current_expr_in (rev (scopes state))
  = Some (scope_state, current_expr) ->
  find_until_line_no (ee_expr_id current_expr) (events (scope scope_state))
                     None = Some until_line_no ->
  let w' := resumed ("until " ++ Py.str_int until_line_no) w in
  State_decode context (selected_frame (host w')) = None ->
  OutCommand_invoke context EmptyString w = (Raised no_scopes_attribute, w').
Proof.
  intros Hdecode Hfound Huntil w' Hlost.
  rewrite (step_out_resumes _ _ _ _ _ _ Hdecode Hfound Huntil).
  fold w'. rewrite Hlost. reflexivity.
Qed.

(** C10: when the events of the scope of the expression in progress hold
    two or more completions of that expression, stepping out resumes the
    inferior until the generated line of the last of them, and does
    nothing afterwards but print. *)
Theorem step_out_until_last_done (context : Context) (state : State)
  (scope_state : ScopeState) (current_expr : ExpressionEvaluation)
  (w : World) :
  State_decode context (selected_frame (host w)) = Some state ->
  lookup_current_expr_in (rev (scopes state))
  = Some (scope_state, current_expr) ->
  let line_nos :=
    done_line_nos (ee_expr_id current_expr) (events (scope scope_state)) in
  (2 <= List.length line_nos)%nat ->
  let command := "until " ++ Py.str_int (last line_nos 0%Z) in
  exists result printed,
    OutCommand_invoke context EmptyString w
    = (result, logged (resumed command w) printed)
    /\ forallb is_print printed = true.
Proof.
  intros Hdecode Hfound line_nos Hlen command.
  assert (Huntil : find_until_line_no (ee_expr_id current_expr)
                     (events (scope scope_state)) None
                   = Some (last line_nos 0%Z)).
  { rewrite find_until_line_no_last. fold line_nos.
    destruct line_nos; [simpl in Hlen; lia | reflexivity]. }
  rewrite (step_out_resumes _ _ _ _ _ _ Hdecode Hfound Huntil).
  fold command. set (w' := resumed command w).
  destruct (State_decode context (selected_frame (host w')))
    as [new_state|] eqn:Hnew.
  - unfold lookup_expr, get_scopes, get_property, bind, ret.
    destruct (Property_ne (property new_state) (property state)).
    + eexists _, [_]. split; reflexivity.
    + destruct (lookup_expr_in (scopes new_state) (ee_expr_id current_expr))
        as [e|].
      * destruct (ee_status e); eexists _, [_]; split; reflexivity.
      * eexists _, [_]. split; reflexivity.
  - exists (Raised no_scopes_attribute), []. split; [|reflexivity].
    now rewrite logged_nil.
Qed.

End OutCommandTheorems.

(** ** The theorems at work on the small session *)

Module DemoFacts.

Import Demo.

Local Open Scope Z_scope.

Lemma value_image_truncation_witness :
  value_image (printer true false 11) "BIG"
  = "01234567890123456789012345678901234567890123456789..."
  /\ String.length (Py.take 50 long_text) = 50%nat
  /\ exists rest, long_text = Py.take 50 long_text ++ rest.
Proof.
  apply (proj1 (value_image_truncation (printer true false 11) "BIG")).
  - reflexivity.
  - vm_compute. lia.
Defined.

Lemma storage_name_parenthetical_witness :
  StatePrinter_run (printer true true 12) (world_at 12)
  = (Returned tt,
     logged (world_at 12)
       [Print "Running Node.p_prop"; Print "from spec.py:127";
        Print EmptyString;
        Print "x (X_1) = 41"; Print "x + 1 (R_1) -> 42"]).
Proof.
  apply (proj2 (storage_name_parenthetical (printer true true 12)
                  (state_at (Done "R_1")) (world_at 12) eq_refl)).
  reflexivity.
Defined.

Lemma one_blank_line_per_printed_scope_witness :
  StatePrinter_run (printer true false 11) (world_at 11)
  = (Returned tt,
     logged (world_at 11)
       [Print "Running Node.p_prop"; Print "from spec.py:127";
        Print EmptyString;
        Print "x = 41"; Print "Currently evaluating x + 1";
        Print "from spec.py:128"]).
Proof.
  apply (proj1 (one_blank_line_per_printed_scope (printer true false 11)
                  (state_at Started) (world_at 11) eq_refl)).
Defined.

Lemma StateCommand_flags_witness :
  StateCommand_invoke context "f" (world_at 11)
  = (Returned tt, logged (world_at 11) [Print "Invalid argument"]).
Proof.
  apply (proj1 (StateCommand_flags context "f" (world_at 11))).
  - discriminate.
  - reflexivity.
Defined.

Lemma break_on_property_outcomes_witness :
  break_on_property context "node.P_PROP" (world_at 11)
  = (Returned tt, logged (world_at 11) [Breakpoint "impl.adb:9"]).
Proof.
  apply (proj2 (proj2 (proj2 (break_on_property_outcomes
                                context "node.P_PROP" (world_at 11)))
                  [] P [Q] ltac:(discriminate) eq_refl
                  ltac:(intros p []) eq_refl)
           scope1 [] eq_refl).
Defined.

Lemma break_on_dsl_sloc_outcomes_witness :
  break_on_dsl_sloc context "spec.py:128" (world_at 11)
  = (Returned tt, logged (world_at 11) [Breakpoint "impl.adb:10"]).
Proof.
  apply (proj1 (proj2 (break_on_dsl_sloc_outcomes
                         context "spec.py:128" (sloc "spec.py" 128)
                         (world_at 11) eq_refl))
           (mkMatch P (sloc "spec.py" 128) 10)).
  reflexivity.
Defined.

Lemma step_out_without_state_raises_witness :
  OutCommand_invoke context EmptyString (world_at 3)
  = (Raised no_scopes_attribute, world_at 3).
Proof.
  apply (step_out_without_state_raises context (world_at 3)).
  reflexivity.
Defined.

Lemma step_out_lost_state_raises_witness :
  OutCommand_invoke lost_context EmptyString (world_at 11)
  = (Raised no_scopes_attribute, resumed "until 12" (world_at 11)).
Proof.
  apply (step_out_lost_state_raises lost_context (state_at Started)
           (mkScopeState scope1 [x_binding] [(1, expr1 Started)])
           (expr1 Started) 12 (world_at 11));
    reflexivity.
Defined.

Lemma step_out_until_last_done_witness :
  exists result printed,
    OutCommand_invoke twice_context EmptyString (world_at 11)
    = (result, logged (resumed "until 15" (world_at 11)) printed)
    /\ forallb is_print printed = true.
Proof.
  apply (step_out_until_last_done twice_context
           (mkState P [mkScopeState scope2 [] [(1, expr1 Started)]])
           (mkScopeState scope2 [] [(1, expr1 Started)])
           (expr1 Started) (world_at 11)).
  - reflexivity.
  - reflexivity.
  - vm_compute. lia.
Defined.

(** The scenario from end to end, by evaluation. *)

Example state_in_progress :
  StateCommand_invoke context EmptyString (world_at 11)
  = (Returned tt,
     logged (world_at 11)
       [Print "Running Node.p_prop"; Print "from spec.py:127";
        Print EmptyString;
        Print "x = 41"; Print "Currently evaluating x + 1";
        Print "from spec.py:128"]).
Proof. reflexivity. Qed.

Example state_outside_property :
  StateCommand_invoke context "/" (world_at 3)
  = (Returned tt,
     logged (world_at 3) [Print "Selected frame is not in a property."]).
Proof. reflexivity. Qed.

Example state_invalid_flag :
  StateCommand_invoke context "/fx" (world_at 12)
  = (Returned tt, logged (world_at 12) [Print "Invalid flag: 'x'"]).
Proof. reflexivity. Qed.

Example state_full_with_storage :
  StateCommand_invoke context "/sf" (world_at 12)
  = (Returned tt,
     logged (world_at 12)
       [Print "Running Node.p_prop"; Print "from spec.py:127";
        Print EmptyString;
        Print "x (X_1) = 41"; Print "x + 1 (R_1) -> 42"]).
Proof. reflexivity. Qed.

Example break_without_code :
  BreakCommand_invoke context " Node.P_Ext" (world_at 11)
  = (Returned tt, logged (world_at 11) [Print "Node.p_ext has no code"]).
Proof. reflexivity. Qed.

Example break_unknown_property :
  BreakCommand_invoke context "nope" (world_at 11)
  = (Returned tt, logged (world_at 11) [Print "No such property: nope"]).
Proof. reflexivity. Qed.

Example break_no_match :
  BreakCommand_invoke context "spec.py:129" (world_at 11)
  = (Returned tt, logged (world_at 11) [Print "No match for spec.py:129"]).
Proof. reflexivity. Qed.

Example break_ambiguous :
  BreakCommand_invoke (@mkContext location gdb ambiguous_info decode)
    "spec.py:128" (world_at 11)
  = (Returned tt,
     logged (world_at 11)
       [Print "Multiple matches for spec.py:128:";
        Print "  In Node.p_prop, spec.py:128";
        Print "  In Node.p_other, spec.py:128"]).
Proof. reflexivity. Qed.

Example out_with_argument :
  OutCommand_invoke context "now" (world_at 11)
  = (Returned tt, logged (world_at 11) [Print "This command takes no argument"]).
Proof. reflexivity. Qed.

Example out_before_start :
  OutCommand_invoke context EmptyString (world_at 9)
  = (Returned tt,
     logged (world_at 9) [Print "Not evaluating any expression currently"]).
Proof. reflexivity. Qed.

Example out_to_completion :
  OutCommand_invoke context EmptyString (world_at 11)
  = (Returned tt,
     logged (resumed "until 12" (world_at 11))
       [Print "x + 1 evaluated to: 42"]).
Proof. reflexivity. Qed.

End DemoFacts.

(** * Further properties of the commands *)

(** ** The state command, for every argument *)

Section StateCommandMore.

Context {L : Location} {G : Gdb}.

Lemma invoke_flags_valid (cs : string) :
  first_invalid_flag cs = None ->
  forall (printer : StatePrinter) (w : World),
    invoke_flags cs printer w
    = (Returned
         (Some (mkStatePrinter (sp_context printer) (sp_frame printer)
                  (sp_state printer)
                  (with_ellipsis printer && negb (Py.contains_char "f" cs))
                  (with_locs printer || Py.contains_char "s" cs))),
       w).
Proof.
  induction cs as [|c cs IH]; intros Hvalid printer w.
  - simpl. unfold ret. rewrite andb_true_r, orb_false_r. now destruct printer.
  - simpl in Hvalid. unfold valid_flag in Hvalid.
    cbn [invoke_flags Py.contains_char].
    rewrite (Ascii.eqb_sym "f" c), (Ascii.eqb_sym "s" c).
    destruct (Ascii.eqb_spec c "f") as [->|Hf].
    + rewrite (IH Hvalid). simpl. now rewrite andb_false_r.
    + destruct (Ascii.eqb_spec c "s") as [->|Hs].
      * rewrite (IH Hvalid). simpl. now rewrite orb_true_r.
      * discriminate.
Qed.

Lemma startswith_slash (flags : string) :
  Py.startswith (String "/" flags) "/" = true.
Proof.
  unfold Py.startswith. simpl.
  destruct (Ascii.ascii_dec "/" "/"); [now destruct flags | congruence].
Qed.

(** X1: for an argument made of a slash and of any number of [f] and [s]
    flags, in any order and however repeated, the state is printed without
    ellipsis exactly when [f] is among the flags and with storage names
    exactly when [s] is among them. *)
Theorem StateCommand_valid_flags (context : Context) (flags : string)
  (w : World) :
  first_invalid_flag flags = None ->
  let frame := selected_frame (host w) in
  StateCommand_invoke context (String "/" flags) w
  = StatePrinter_run
      (mkStatePrinter context frame (State_decode context frame)
         (negb (Py.contains_char "f" flags)) (Py.contains_char "s" flags)) w.
Proof.
  intros Hvalid frame. unfold StateCommand_invoke.
  rewrite (bind_returned _ _ _ _ _ (StatePrinter_init_returns _ _)).
  rewrite startswith_slash. cbn [Py.truthy Py.tail negb].
  now rewrite (bind_returned _ _ _ _ _ (invoke_flags_valid _ Hvalid _ _)).
Qed.

Lemma StatePrinter_run_only_prints (self : StatePrinter) (w : World) :
  exists lines,
    StatePrinter_run self w = (Returned tt, logged w (map Print lines)).
Proof.
  destruct (sp_state self) as [state|] eqn:Hst.
  - exists (state_lines self state). now apply StatePrinter_run_logged.
  - exists ["Selected frame is not in a property."].
    unfold StatePrinter_run. now rewrite Hst.
Qed.

(** X2: whatever its argument, the state command returns, and all it does
    is print: it sets no breakpoint and leaves the inferior where it is. *)
Theorem StateCommand_only_prints (context : Context) (arg : string)
  (w : World) :
  exists lines,
    StateCommand_invoke context arg w
    = (Returned tt, logged w (map Print lines)).
Proof.
  unfold StateCommand_invoke.
  rewrite (bind_returned _ _ _ _ _ (StatePrinter_init_returns _ _)).
  destruct (Py.truthy arg); [|apply StatePrinter_run_only_prints].
  destruct (Py.startswith arg "/"); cbn [negb].
  - destruct (first_invalid_flag (Py.tail arg)) as [c|] eqn:Hflags.
    + rewrite (bind_returned _ _ _ _ _ (invoke_flags_invalid _ _ Hflags _ _)).
      now exists ["Invalid flag: " ++ Py.repr_char c].
    + rewrite (bind_returned _ _ _ _ _ (invoke_flags_valid _ Hflags _ _)).
      apply StatePrinter_run_only_prints.
  - now exists ["Invalid argument"].
Qed.

(** X3: when the selected frame is not in a property, the state command
    without argument, or with any flags among [f] and [s], prints that the
    frame is not in a property and nothing else. *)
Theorem StateCommand_outside_property (context : Context) (flags : string)
  (w : World) :
  State_decode context (selected_frame (host w)) = None ->
  first_invalid_flag flags = None ->
  StateCommand_invoke context EmptyString w
  = (Returned tt, logged w [Print "Selected frame is not in a property."])
  /\ StateCommand_invoke context (String "/" flags) w
     = (Returned tt, logged w [Print "Selected frame is not in a property."]).
Proof.
  intros Hdecode Hvalid. split.
  - unfold StateCommand_invoke.
    rewrite (bind_returned _ _ _ _ _ (StatePrinter_init_returns _ _)).
    cbn [Py.truthy]. unfold StatePrinter_run. cbn [sp_state].
    now rewrite Hdecode.
  - unfold StateCommand_invoke.
    rewrite (bind_returned _ _ _ _ _ (StatePrinter_init_returns _ _)).
    rewrite startswith_slash. cbn [Py.truthy Py.tail negb].
    rewrite (bind_returned _ _ _ _ _ (invoke_flags_valid _ Hvalid _ _)).
    unfold StatePrinter_run. cbn [sp_state]. now rewrite Hdecode.
Qed.

End StateCommandMore.

(** ** The break command, for every argument *)

Section BreakCommandMore.

Context {L : Location} {G : Gdb}.

Lemma lstrip_head (s : string) (c : ascii) (r : string) :
  Py.lstrip s = String c r -> Py.is_space c = false.
Proof.
  induction s as [|d s IH]; simpl; [discriminate|].
  destruct (Py.is_space d) eqn:Hd; [exact IH|].
  intros [= <- _]. exact Hd.
Qed.

Lemma rstrip_head (c : ascii) (r : string) :
  Py.is_space c = false -> exists r', Py.rstrip (String c r) = String c r'.
Proof.
  intros Hc. simpl. destruct (Py.rstrip r).
  - rewrite Hc. now eexists.
  - now eexists.
Qed.

Lemma rstrip_cons (c : ascii) (s : string) :
  Py.rstrip (String c s)
  = match Py.rstrip s with
    | EmptyString => if Py.is_space c then EmptyString else String c EmptyString
    | r => String c r
    end.
Proof. reflexivity. Qed.

Lemma rstrip_idempotent (s : string) : Py.rstrip (Py.rstrip s) = Py.rstrip s.
Proof.
  induction s as [|c s IH]; [reflexivity|]. simpl.
  destruct (Py.rstrip s) as [|d r] eqn:Hr.
  - destruct (Py.is_space c) eqn:Hc; [reflexivity|]. simpl. now rewrite Hc.
  - rewrite rstrip_cons. now rewrite IH.
Qed.

Lemma strip_idempotent (s : string) : Py.strip (Py.strip s) = Py.strip s.
Proof.
  unfold Py.strip.
  destruct (Py.lstrip s) as [|c r] eqn:Hl; [reflexivity|].
  pose proof (lstrip_head _ _ _ Hl) as Hc.
  destruct (rstrip_head c r Hc) as [r' Hr]. rewrite Hr.
  cbn [Py.lstrip]. rewrite Hc, <- Hr. apply rstrip_idempotent.
Qed.

(** X4: white space around the argument of the break command is of no
    consequence: the command does with a stripped argument what it does
    with the argument itself. *)
Theorem BreakCommand_ignores_surrounding_space (context : Context)
  (arg : string) (w : World) :
  BreakCommand_invoke context (Py.strip arg) w
  = BreakCommand_invoke context arg w.
Proof. unfold BreakCommand_invoke. now rewrite strip_idempotent. Qed.

Lemma find_property_none_inv (lower_prop : string) (props : list Property) :
  find_property lower_prop props = None ->
  forall prop, In prop props ->
               String.eqb (Py.lower (name prop)) lower_prop = false.
Proof.
  induction props as [|p props IH]; simpl; [contradiction|].
  destruct (String.eqb (Py.lower (name p)) lower_prop) eqn:Hp; [discriminate|].
  intros Hnone prop [<- | Hin]; [exact Hp | now apply IH].
Qed.

(** X5: a request by name is case-insensitive: two queries with the same
    lower-cased form, matching some property, have the same outcome. *)
Theorem break_on_property_case_insensitive (context : Context)
  (query query' : string) (w : World) :
  Py.lower query = Py.lower query' ->
  (exists prop, In prop (properties (debug_info context))
                /\ name_matches query prop = true) ->
  break_on_property context query w = break_on_property context query' w.
Proof.
  intros Hlower [prop [Hin Hmatch]]. unfold break_on_property.
  rewrite <- Hlower.
  destruct (find_property (Py.lower query) (properties (debug_info context)))
    eqn:Hfind; [reflexivity|].
  pose proof (find_property_none_inv _ _ Hfind prop Hin) as Hno.
  unfold name_matches in Hmatch. congruence.
Qed.

(** X6: whatever its argument, the break command either lets the exception
    of the location parser escape, having done nothing, or sets one
    breakpoint in the generated source file and prints nothing, or only
    prints; it never resumes the inferior. *)
Theorem BreakCommand_effects (context : Context) (arg : string) (w : World) :
  (exists e, BreakCommand_invoke context arg w = (Raised e, w)
             /\ DSLLocation_parse (Py.strip arg) = Raised e)
  \/ (exists line_no,
         BreakCommand_invoke context arg w
         = (Returned tt,
            logged w [Breakpoint (filename (debug_info context) ++ ":"
                                    ++ Py.str_int line_no)]))
  \/ (exists lines,
         lines <> []
         /\ BreakCommand_invoke context arg w
            = (Returned tt, logged w (map Print lines))).
Proof.
  unfold BreakCommand_invoke.
  destruct (Py.contains_char ":" (Py.strip arg)).
  - unfold break_on_dsl_sloc.
    destruct (DSLLocation_parse (Py.strip arg)) as [dsl_sloc|e] eqn:Hparse.
    + right.
      destruct (process_properties dsl_sloc (properties (debug_info context)) [])
        as [|m [|m' others]] eqn:Hm.
      * right. eexists [_]. split; [discriminate | reflexivity].
      * left. exists (m_line_no m). reflexivity.
      * right. cbn [List.length Nat.ltb Nat.leb].
        rewrite (bind_returned _ _ _ _ _ (print_logged _ _)).
        rewrite (for_each_logged _ (fun m => [Print (match_line m)]));
          [|intros; apply print_logged].
        rewrite logged_logged.
        exists (("Multiple matches for " ++ DSLLocation_str dsl_sloc ++ ":")
                  :: map match_line (m :: m' :: others)).
        split; [discriminate|].
        assert (Hflat : forall l : list Match,
                   flat_map (fun m => [Print (match_line m)]) l
                   = map Print (map match_line l)).
        { induction l as [|x l IHl]; simpl; [reflexivity | now f_equal]. }
        now rewrite Hflat.
    + left. exists e. split; reflexivity.
  - right. unfold break_on_property.
    destruct (Py.truthy (Py.lower (Py.strip arg))); cbn [negb].
    + destruct (find_property _ _) as [prop|].
      * destruct (subscopes prop) as [|scope0 others].
        -- right. eexists [_]. split; [discriminate | reflexivity].
        -- left. eexists. reflexivity.
      * right. eexists [_]. split; [discriminate | reflexivity].
    + right. eexists [_]. split; [discriminate | reflexivity].
Qed.

End BreakCommandMore.

(** ** The out command, for every argument and state *)

Section OutCommandMore.

Context {L : Location} {G : Gdb}.

Lemma step_out_no_state (context : Context) (w : World) :
  State_decode context (selected_frame (host w)) = None ->
  OutCommand_invoke context EmptyString w = (Raised no_scopes_attribute, w).
Proof.
  intros Hdecode. unfold OutCommand_invoke. cbn [Py.truthy].
  unfold decode_state, lookup_current_expr, gdb_selected_frame, bind, ret.
  now rewrite Hdecode.
Qed.

Lemma step_out_not_found (context : Context) (state : State) (w : World) :
  State_decode context (selected_frame (host w)) = Some state ->
  lookup_current_expr_in (rev (scopes state)) = None ->
  OutCommand_invoke context EmptyString w
  = (Returned tt, logged w [Print "Not evaluating any expression currently"]).
Proof.
  intros Hdecode Hfound. unfold OutCommand_invoke. cbn [Py.truthy].
  unfold decode_state, lookup_current_expr, gdb_selected_frame, bind, ret.
  rewrite Hdecode. cbn [get_scopes]. unfold ret. now rewrite Hfound.
Qed.

Lemma step_out_no_until (context : Context) (state : State)
  (scope_state : ScopeState) (current_expr : ExpressionEvaluation)
  (w : World) :
  State_decode context (selected_frame (host w)) = Some state ->
  lookup_current_expr_in (rev (scopes state))
  = Some (scope_state, current_expr) ->
  find_until_line_no (ee_expr_id current_expr) (events (scope scope_state))
                     None = None ->
  OutCommand_invoke context EmptyString w
  = (Returned tt,
     logged w
       [Print ("ERROR: cannot find the end of evaluation for expression "
                 ++ ExpressionEvaluation_str current_expr
                 ++ ". Code generation may have a bug.")]).
Proof.
  intros Hdecode Hfound Huntil. unfold OutCommand_invoke. cbn [Py.truthy].
  unfold decode_state, lookup_current_expr, gdb_selected_frame, bind, ret.
  rewrite Hdecode. cbn [get_scopes]. unfold ret. now rewrite Hfound, Huntil.
Qed.

(** X7: when the events of the scope of the expression in progress hold no
    completion of that expression, stepping out reports that the end of its
    evaluation cannot be found, and does not resume the inferior. *)
Theorem step_out_without_completion (context : Context) (state : State)
  (scope_state : ScopeState) (current_expr : ExpressionEvaluation)
  (w : World) :
  State_decode context (selected_frame (host w)) = Some state ->
  lookup_current_expr_in (rev (scopes state))
  = Some (scope_state, current_expr) ->
  done_line_nos (ee_expr_id current_expr) (events (scope scope_state)) = [] ->
  OutCommand_invoke context EmptyString w
  = (Returned tt,
     logged w
       [Print ("ERROR: cannot find the end of evaluation for expression "
                 ++ ExpressionEvaluation_str current_expr
                 ++ ". Code generation may have a bug.")]).
Proof.
  intros Hdecode Hfound Hnone.
  apply (step_out_no_until _ _ _ _ _ Hdecode Hfound).
  now rewrite find_until_line_no_last, Hnone.
Qed.

(** The case of a path that prints one line: [settle] says in which
    world. *)
Ltac only_prints settle :=
  eexists; (split; [|split]); [ | | settle ]; [simpl; lia | reflexivity].

(** X8: whatever its argument and the state of the session, the out command
    sets no breakpoint, prints at most one line, and resumes the inferior
    at most once, then with an [until] command and before it prints. *)
Theorem OutCommand_effects (context : Context) (arg : string) (w : World) :
  exists printed,
    (List.length printed <= 1)%nat
    /\ forallb is_print printed = true
    /\ (snd (OutCommand_invoke context arg w) = logged w printed
        \/ exists line_no,
            snd (OutCommand_invoke context arg w)
            = logged (resumed ("until " ++ Py.str_int line_no) w) printed).
Proof.
  destruct (Py.truthy arg) eqn:Harg.
  { only_prints ltac:(left; unfold OutCommand_invoke; rewrite Harg;
                      reflexivity). }
  apply truthy_false_iff in Harg. subst arg.
  destruct (State_decode context (selected_frame (host w)))
    as [state|] eqn:Hdecode.
  2:{ exists []. split; [simpl; lia | split; [reflexivity|]]. left.
      rewrite (step_out_no_state _ _ Hdecode). simpl. now rewrite logged_nil. }
  destruct (lookup_current_expr_in (rev (scopes state)))
    as [[scope_state current_expr]|] eqn:Hfound.
  2:{ only_prints ltac:(left;
                        rewrite (step_out_not_found _ _ _ Hdecode Hfound);
                        reflexivity). }
  destruct (find_until_line_no (ee_expr_id current_expr)
              (events (scope scope_state)) None)
    as [until_line_no|] eqn:Huntil.
  2:{ only_prints
        ltac:(left;
              rewrite (step_out_no_until _ _ _ _ _ Hdecode Hfound Huntil);
              reflexivity). }
  rewrite (step_out_resumes _ _ _ _ _ _ Hdecode Hfound Huntil).
  set (w' := resumed ("until " ++ Py.str_int until_line_no) w).
  destruct (State_decode context (selected_frame (host w')))
    as [new_state|] eqn:Hnew.
  - unfold lookup_expr, get_scopes, get_property, bind, ret.
    destruct (Property_ne (property new_state) (property state)).
    + only_prints ltac:(right; exists until_line_no; reflexivity).
    + destruct (lookup_expr_in (scopes new_state) (ee_expr_id current_expr))
        as [e|].
      * destruct (ee_status e);
          only_prints ltac:(right; exists until_line_no; reflexivity).
      * only_prints ltac:(right; exists until_line_no; reflexivity).
  - exists []. split; [simpl; lia | split; [reflexivity|]].
    right. exists until_line_no. simpl. now rewrite logged_nil.
Qed.

End OutCommandMore.

(** ** Looking expressions up in a state *)

Section LookupFacts.

Context {L : Location} {G : Gdb}.

Lemma find_first_split {A : Type} (p : A -> bool) (l : list A) (x : A) :
  find p l = Some x ->
  exists a b, l = (a ++ x :: b)%list /\ p x = true
              /\ forall y, In y a -> p y = false.
Proof.
  induction l as [|y l IH]; simpl; [discriminate|].
  destruct (p y) eqn:Hy.
  - intros [= ->]. exists [], l. repeat split; [assumption | intros ? []].
  - intros Hfind. destruct (IH Hfind) as [a [b [-> [Hx Ha]]]].
    exists (y :: a), b. repeat split; [assumption|].
    intros z [<- | Hz]; [assumption | now apply Ha].
Qed.

Lemma find_last_split {A : Type} (p : A -> bool) (l : list A) (x : A) :
  find p (rev l) = Some x ->
  exists a b, l = (a ++ x :: b)%list /\ p x = true
              /\ forall y, In y b -> p y = false.
Proof.
  intros Hfind. destruct (find_first_split _ _ _ Hfind) as [a [b [Hl [Hx Ha]]]].
  exists (rev b), (rev a). repeat split; [|assumption|].
  - rewrite <- (rev_involutive l), Hl, rev_app_distr. simpl.
    now rewrite <- app_assoc.
  - intros y Hy. apply Ha. now apply in_rev in Hy.
Qed.

Lemma lookup_current_expr_in_split (l : list ScopeState)
  (scope_state : ScopeState) (e : ExpressionEvaluation) :
  lookup_current_expr_in l = Some (scope_state, e) ->
  exists a b,
    l = (a ++ scope_state :: b)%list
    /\ find is_started (rev (values (expressions scope_state))) = Some e
    /\ forall ss, In ss a ->
                  find is_started (rev (values (expressions ss))) = None.
Proof.
  induction l as [|ss l IH]; simpl; [discriminate|].
  destruct (find is_started (rev (values (expressions ss)))) as [e'|] eqn:He.
  - intros [= -> ->]. exists [], l. repeat split; [assumption | intros ? []].
  - intros Hfind. destruct (IH Hfind) as [a [b [-> [Hx Ha]]]].
    exists (ss :: a), b. repeat split; [assumption|].
    intros z [<- | Hz]; [assumption | now apply Ha].
Qed.

(** X9: the expression the out command takes as being evaluated is the
    last started expression of the innermost scope that has a started
    expression: no deeper scope has one, and none follows it in its
    scope. *)
Theorem lookup_current_expr_innermost_last (state : State)
  (scope_state : ScopeState) (e : ExpressionEvaluation) (w w' : World) :
  lookup_current_expr (Some state) w = (Returned (Some (scope_state, e)), w') ->
  w' = w
  /\ exists outer inner before after,
      scopes state = (outer ++ scope_state :: inner)%list
      /\ values (expressions scope_state) = (before ++ e :: after)%list
      /\ is_started e = true
      /\ (forall e', In e' after -> is_started e' = false)
      /\ (forall ss e', In ss inner -> In e' (values (expressions ss)) ->
                        is_started e' = false).
Proof.
  unfold lookup_current_expr, get_scopes, bind, ret. intros [= Hfind <-].
  split; [reflexivity|].
  destruct (lookup_current_expr_in_split _ _ _ Hfind) as [a [b [Hl [He Ha]]]].
  destruct (find_last_split _ _ _ He) as [before [after [Hv [Hs Hafter]]]].
  exists (rev b), (rev a), before, after. repeat split; try assumption.
  - rewrite <- (rev_involutive (scopes state)), Hl, rev_app_distr. simpl.
    now rewrite <- app_assoc.
  - intros ss e' Hss He'. apply in_rev in Hss.
    pose proof (find_none _ _ (Ha ss Hss) e') as Hnone.
    apply Hnone. now apply in_rev in He'.
Qed.

(** X10: looking for the current expression yields nothing exactly when no
    expression of any scope of the state is started. *)
Theorem lookup_current_expr_none_iff (state : State) (w : World) :
  lookup_current_expr (Some state) w = (Returned None, w)
  <-> nothing_started state = true.
Proof.
  unfold lookup_current_expr, get_scopes, bind, ret. split.
  - intros [= Hnone]. unfold nothing_started.
    apply forallb_forall. intros ss Hss. apply forallb_forall. intros e He.
    destruct (is_started e) eqn:Hst; [|reflexivity]. exfalso.
    assert (Hgen : forall l, lookup_current_expr_in l = None ->
                     In ss l -> False).
    { induction l as [|ss' l IH]; simpl; [tauto|].
      destruct (find is_started (rev (values (expressions ss')))) eqn:Hf;
        [discriminate|].
      intros Hl [-> | Hin]; [|now apply IH].
      rewrite (find_none _ _ Hf e) in Hst; [discriminate|].
      now apply -> in_rev. }
    apply (Hgen _ Hnone). now apply -> in_rev.
  - intros Hnone. now rewrite (lookup_current_expr_in_none _ Hnone).
Qed.

Lemma lookup_expr_in_split (l : list ScopeState) (expr_id : Z)
  (e : ExpressionEvaluation) :
  lookup_expr_in l expr_id = Some e ->
  exists outer scope_state inner before after,
    l = (outer ++ scope_state :: inner)%list
    /\ values (expressions scope_state) = (before ++ e :: after)%list
    /\ ee_expr_id e = expr_id
    /\ (forall e', In e' before -> ee_expr_id e' <> expr_id)
    /\ (forall ss e', In ss outer -> In e' (values (expressions ss)) ->
                      ee_expr_id e' <> expr_id).
Proof.
  induction l as [|ss l IH]; simpl; [discriminate|].
  destruct (find (fun e0 => Z.eqb (ee_expr_id e0) expr_id)
                 (values (expressions ss))) as [e'|] eqn:He.
  - intros [= ->].
    destruct (find_first_split _ _ _ He) as [a [b [Hv [Hid Ha]]]].
    exists [], ss, l, a, b. repeat split; try assumption.
    + now apply Z.eqb_eq.
    + intros e' He'. apply Z.eqb_neq. now apply Ha.
    + intros ? ? [].
  - intros Hfind.
    destruct (IH Hfind)
      as [outer [s [inner [before [after [-> [Hv [Hid [Hb Ho]]]]]]]]].
    exists (ss :: outer), s, inner, before, after.
    repeat split; try assumption.
    intros ss' e' [<- | Hin] He'; [|now apply (Ho ss')].
    apply Z.eqb_neq. apply (find_none _ _ He e' He').
Qed.

(** X11: looking an expression up by id in a state yields the first
    expression with that id, scopes taken outermost first and expressions
    in order, and yields nothing only when no expression of the state has
    that id. *)
Theorem lookup_expr_first (state : State) (expr_id : Z) (w : World) :
  exists found,
    lookup_expr (Some state) expr_id w = (Returned found, w)
    /\ match found with
       | Some e =>
           exists outer scope_state inner before after,
             scopes state = (outer ++ scope_state :: inner)%list
             /\ values (expressions scope_state) = (before ++ e :: after)%list
             /\ ee_expr_id e = expr_id
             /\ (forall e', In e' before -> ee_expr_id e' <> expr_id)
             /\ (forall ss e', In ss outer ->
                               In e' (values (expressions ss)) ->
                               ee_expr_id e' <> expr_id)
       | None =>
           forall ss e', In ss (scopes state) ->
                         In e' (values (expressions ss)) ->
                         ee_expr_id e' <> expr_id
       end.
Proof.
  exists (lookup_expr_in (scopes state) expr_id). split; [reflexivity|].
  destruct (lookup_expr_in (scopes state) expr_id) as [e|] eqn:Hfind.
  - now apply lookup_expr_in_split.
  - revert Hfind. induction (scopes state) as [|ss l IH]; simpl.
    + intros _ ? ? [].
    + destruct (find (fun e0 => Z.eqb (ee_expr_id e0) expr_id)
                     (values (expressions ss))) eqn:He; [discriminate|].
      intros Hl ss' e' [<- | Hin] He'; [|now apply (IH Hl ss')].
      apply Z.eqb_neq. apply (find_none _ _ He e' He').
Qed.

End LookupFacts.

(** ** The length of a value image *)

Lemma length_append (a b : string) :
  String.length (a ++ b) = (String.length a + String.length b)%nat.
Proof. induction a as [|c a IH]; simpl; [reflexivity | now rewrite IH]. Qed.

Section ValueImageMore.

Context {L : Location} {G : Gdb}.

(** X12: with the ellipsis asked for, the image of a value never has more
    than 53 characters, whatever the display text of the value. *)
Theorem value_image_bounded (self : StatePrinter) (var_name : string) :
  with_ellipsis self = true ->
  (String.length (value_image self var_name) <= 53)%nat.
Proof.
  intros He. unfold value_image, ellipsis_limit. rewrite He. cbn [andb].
  destruct (Nat.ltb_spec 50
              (String.length (read_var (sp_frame self) (Py.lower var_name))))
    as [Hlong|Hshort].
  - rewrite length_append.
    destruct (take_is_prefix 50 (read_var (sp_frame self) (Py.lower var_name)))
      as [Hlen _]; [lia|].
    rewrite Hlen. simpl. lia.
  - lia.
Qed.

End ValueImageMore.

(** ** Token data handlers *)

Section TDHFacts.

Variable Kind : Type.

(** X13: [get] returns a token exactly when the index it uses is within the
    bounds of its vector, from 1 to the size included: the token number
    when the trivia number is zero, the trivia number otherwise, the token
    number being then left unchecked.  It raises [Out of bounds index]
    otherwise. *)
Theorem TDH_get_bounds (self : TDH.TDH Kind) (token_no trivia_no : Z) :
  ((exists tok, TDH.get self token_no trivia_no = TDH.Ok tok)
   <-> (trivia_no = 0
        /\ 1 <= token_no <= TDH.size (TDH.tokens Kind (TDH.value Kind self)))
       \/ (1 <= trivia_no
                <= TDH.size (TDH.trivias Kind (TDH.value Kind self))))%Z
  /\ forall msg,
      TDH.get self token_no trivia_no = TDH.GdbError msg ->
      msg = "Out of bounds index".
Proof.
  unfold TDH.get, TDH.token, TDH.trivia, TDH._vector_item.
  destruct (Z.eqb_spec trivia_no 0) as [->|Hne]; cbn [negb].
  - destruct (Z.ltb_spec token_no 1); cbn [orb].
    + split; [|now intros msg [= <-]].
      split; [intros [tok Htok]; discriminate | intros [[_ Hb]|Hb]; lia].
    + destruct (Z.ltb_spec (TDH.size (TDH.tokens Kind (TDH.value Kind self)))
                  token_no).
      * split; [|now intros msg [= <-]].
        split; [intros [tok Htok]; discriminate | intros [[_ Hb]|Hb]; lia].
      * split; [|discriminate].
        split; [intros _; left; lia | intros _; now eexists].
  - destruct (Z.ltb_spec trivia_no 1); cbn [orb].
    + split; [|now intros msg [= <-]].
      split; [intros [tok Htok]; discriminate | intros [[Hz _]|Hb]; lia].
    + destruct (Z.ltb_spec (TDH.size (TDH.trivias Kind (TDH.value Kind self)))
                  trivia_no).
      * split; [|now intros msg [= <-]].
        split; [intros [tok Htok]; discriminate | intros [[Hz _]|Hb]; lia].
      * split; [|discriminate].
        split; [intros _; right; lia | intros _; now eexists].
Qed.

(** X14: the token [get] returns records the handler and the two numbers it
    was asked for; its value is the element of the tokens at the token
    number when the trivia number is zero, and otherwise the token of the
    element of the trivias at the trivia number. *)
Theorem TDH_get_token (self : TDH.TDH Kind) (token_no trivia_no : Z)
  (tok : TDH.Token Kind) :
  TDH.get self token_no trivia_no = TDH.Ok tok ->
  TDH.tdh Kind tok = self
  /\ TDH.token_no Kind tok = token_no
  /\ TDH.trivia_no Kind tok = trivia_no
  /\ TDH.token_value Kind tok
     = if (trivia_no =? 0)%Z
       then TDH.e (TDH.tokens Kind (TDH.value Kind self)) token_no
       else TDH.t Kind (TDH.e (TDH.trivias Kind (TDH.value Kind self))
                              trivia_no).
Proof.
  unfold TDH.get, TDH.token, TDH.trivia, TDH._vector_item.
  destruct (Z.eqb_spec trivia_no 0) as [->|Hne]; cbn [negb].
  - destruct (_ || _); [discriminate|]. intros [= <-]. now repeat split.
  - destruct (_ || _); [discriminate|]. intros [= <-]. now repeat split.
Qed.

End TDHFacts.

(** ** The text of source locations *)

Lemma str_int_inj (a b : Z) : Py.str_int a = Py.str_int b -> a = b.
Proof.
  assert (Hne : forall z, Z.to_int z <> Decimal.Pos Decimal.Nil
                          /\ Z.to_int z <> Decimal.Neg Decimal.Nil).
  { intros [|p|p]; simpl; split; try discriminate;
      intros [= H]; now apply DecimalPos.Unsigned.to_uint_nonnil in H. }
  unfold Py.str_int. intros H.
  apply (f_equal NilZero.int_of_string) in H.
  rewrite !NilZero.isi in H by apply Hne.
  injection H as H. now apply DecimalZ.to_int_inj.
Qed.

Lemma digits_without (c : ascii) (d : Decimal.uint) :
  Py.contains_char c "0123456789" = false ->
  Py.contains_char c (NilEmpty.string_of_uint d) = false.
Proof.
  intros Hc. simpl in Hc. rewrite !orb_false_r in Hc.
  repeat (apply orb_false_iff in Hc; destruct Hc as [? Hc]).
  induction d; simpl; try reflexivity;
    apply orb_false_iff; split; assumption.
Qed.

Lemma unsigned_without (c : ascii) (d : Decimal.uint) :
  Py.contains_char c "0123456789" = false ->
  Py.contains_char c (NilZero.string_of_uint d) = false.
Proof.
  intros Hc. destruct d; try apply (digits_without c _ Hc).
  simpl in *. rewrite !orb_false_r in *.
  now apply orb_false_iff in Hc.
Qed.

Lemma unsigned_not_empty (d : Decimal.uint) :
  NilZero.string_of_uint d <> EmptyString.
Proof. destruct d; discriminate. Qed.

Lemma str_int_without_colon (z : Z) :
  Py.contains_char ":" (Py.str_int z) = false.
Proof.
  unfold Py.str_int. destruct (Z.to_int z) as [d|d]; simpl.
  - now apply unsigned_without.
  - now apply unsigned_without.
Qed.

(** The text of an integer is a run of digits, after a dash when the
    integer is negative. *)
Lemma str_int_sign (z : Z) :
  (Py.contains_char "-" (Py.str_int z) = false
   /\ Py.str_int z <> EmptyString)
  \/ exists digits, Py.str_int z = String "-" digits
                    /\ Py.contains_char "-" digits = false.
Proof.
  unfold Py.str_int. destruct (Z.to_int z) as [d|d]; simpl.
  - left. split; [now apply unsigned_without | apply unsigned_not_empty].
  - right. eexists. split; [reflexivity | now apply unsigned_without].
Qed.

Lemma split_at_char (c : ascii) (a a' b b' : string) :
  Py.contains_char c a = false ->
  Py.contains_char c a' = false ->
  a ++ String c b = a' ++ String c b' ->
  a = a' /\ b = b'.
Proof.
  revert a'. induction a as [|x a IH]; intros [|x' a']; simpl.
  - intros _ _ [= ->]. now split.
  - intros _ H [= <- _]. now rewrite Ascii.eqb_refl in H.
  - intros H _ [= -> _]. now rewrite Ascii.eqb_refl in H.
  - intros H H' [= <- Heq].
    apply orb_false_iff in H, H'.
    destruct (IH a' (proj2 H) (proj2 H') Heq) as [-> ->]. now split.
Qed.

Lemma append_assoc (a b c : string) : (a ++ b) ++ c = a ++ b ++ c.
Proof. induction a as [|x a IH]; simpl; [reflexivity | now rewrite IH]. Qed.

Lemma str_int_then_dash (x x' : Z) (r r' : string) :
  Py.str_int x ++ String "-" r = Py.str_int x' ++ String "-" r' ->
  x = x' /\ r = r'.
Proof.
  intros Heq.
  destruct (str_int_sign x) as [[Hx Hnx] | [u [Hx Hu]]],
           (str_int_sign x') as [[Hx' Hnx'] | [u' [Hx' Hu']]].
  - destruct (split_at_char _ _ _ _ _ Hx Hx' Heq) as [Hs ->].
    split; [now apply str_int_inj | reflexivity].
  - exfalso. rewrite Hx' in Heq.
    destruct (Py.str_int x) as [|c s]; [congruence|].
    simpl in Heq, Hx. injection Heq as -> _. discriminate Hx.
  - exfalso. rewrite Hx in Heq.
    destruct (Py.str_int x') as [|c s]; [congruence|].
    simpl in Heq, Hx'. injection Heq as <- _. discriminate Hx'.
  - rewrite Hx, Hx' in Heq. simpl in Heq. injection Heq as Heq.
    destruct (split_at_char _ _ _ _ _ Hu Hu' Heq) as [Hs ->].
    split; [|reflexivity]. apply str_int_inj. now rewrite Hx, Hx', Hs.
Qed.

(** X15: the text of a source location tells its line and its column: two
    locations with the same text are the same. *)
Theorem Sloc_repr_injective (a b : TDH.Sloc) :
  TDH.Sloc_repr a = TDH.Sloc_repr b -> a = b.
Proof.
  destruct a as [l c], b as [l' c']. unfold TDH.Sloc_repr. simpl.
  intros Heq.
  destruct (split_at_char _ _ _ _ _ (str_int_without_colon l)
              (str_int_without_colon l') Heq) as [Hl Hc].
  apply str_int_inj in Hl, Hc. now subst.
Qed.

(** X16: the text of a range of source locations tells its two ends, also
    with negative numbers, whose sign is the character that separates the
    ends: two ranges with the same text are the same. *)
Theorem SlocRange_repr_injective (a b : TDH.SlocRange) :
  TDH.SlocRange_repr a = TDH.SlocRange_repr b -> a = b.
Proof.
  destruct a as [[l1 c1] [l2 c2]], b as [[l1' c1'] [l2' c2']].
  unfold TDH.SlocRange_repr, TDH.Sloc_repr. cbn [TDH.start TDH.end_ TDH.line TDH.column].
  rewrite !append_assoc. intros Heq.
  destruct (split_at_char _ _ _ _ _ (str_int_without_colon l1)
              (str_int_without_colon l1') Heq) as [Hl1 Heq1].
  destruct (str_int_then_dash _ _ _ _ Heq1) as [Hc1 Heq2].
  destruct (split_at_char _ _ _ _ _ (str_int_without_colon l2)
              (str_int_without_colon l2') Heq2) as [Hl2 Hc2].
  apply str_int_inj in Hl1, Hl2, Hc2. now subst.
Qed.

(** ** The further properties at work on the small session *)

Module MoreDemoFacts.

Import Demo Demo2.

Local Open Scope Z_scope.

Lemma StateCommand_valid_flags_witness :
  StateCommand_invoke context "/sfs" (world_at 12)
  = StatePrinter_run (printer false true 12) (world_at 12).
Proof.
  apply (StateCommand_valid_flags context "sfs" (world_at 12)).
  reflexivity.
Defined.

Lemma StateCommand_outside_property_witness :
  StateCommand_invoke context EmptyString (world_at 3)
  = (Returned tt,
     logged (world_at 3) [Print "Selected frame is not in a property."])
  /\ StateCommand_invoke context "/fs" (world_at 3)
     = (Returned tt,
        logged (world_at 3) [Print "Selected frame is not in a property."]).
Proof.
  apply (StateCommand_outside_property context "fs" (world_at 3));
    reflexivity.
Defined.

Lemma break_on_property_case_insensitive_witness :
  break_on_property context "NODE.P_PROP" (world_at 11)
  = break_on_property context "node.p_prop" (world_at 11).
Proof.
  apply (break_on_property_case_insensitive context "NODE.P_PROP"
           "node.p_prop" (world_at 11)).
  - reflexivity.
  - exists P. split; [left; reflexivity | reflexivity].
Defined.

Lemma step_out_without_completion_witness :
  OutCommand_invoke unfinished_context EmptyString (world_at 11)
  = (Returned tt,
     logged (world_at 11)
       [Print ("ERROR: cannot find the end of evaluation for expression "
                 ++ "x + 1" ++ ". Code generation may have a bug.")]).
Proof.
  apply (step_out_without_completion unfinished_context unfinished_state
           (mkScopeState scope3 [] [(1, expr1 Started)]) (expr1 Started)
           (world_at 11));
    reflexivity.
Defined.

Lemma lookup_current_expr_innermost_last_witness :
  world_at 11 = world_at 11
  /\ exists outer inner before after,
      scopes (state_at Started)
      = (outer ++ mkScopeState scope1 [x_binding] [(1, expr1 Started)]
               :: inner)%list
      /\ values [(1, expr1 Started)] = (before ++ expr1 Started :: after)%list
      /\ is_started (expr1 Started) = true
      /\ (forall e', In e' after -> is_started e' = false)
      /\ (forall ss e', In ss inner -> In e' (values (expressions ss)) ->
                        is_started e' = false).
Proof.
  apply (lookup_current_expr_innermost_last (state_at Started)
           (mkScopeState scope1 [x_binding] [(1, expr1 Started)])
           (expr1 Started) (world_at 11) (world_at 11)).
  reflexivity.
Defined.

Lemma value_image_bounded_witness :
  (String.length (value_image (printer true false 11) "BIG") <= 53)%nat.
Proof.
  apply (value_image_bounded (printer true false 11) "BIG").
  reflexivity.
Defined.

Lemma TDH_get_token_witness :
  TDH.tdh string
    (TDH.mkToken string handler (TDH.t string (trivia_at 1)) 2 1) = handler
  /\ TDH.token_no string
       (TDH.mkToken string handler (TDH.t string (trivia_at 1)) 2 1) = 2
  /\ TDH.trivia_no string
       (TDH.mkToken string handler (TDH.t string (trivia_at 1)) 2 1) = 1
  /\ TDH.token_value string
       (TDH.mkToken string handler (TDH.t string (trivia_at 1)) 2 1)
     = TDH.t string (trivia_at 1).
Proof.
  apply (TDH_get_token string handler 2 1
           (TDH.mkToken string handler (TDH.t string (trivia_at 1)) 2 1)).
  reflexivity.
Defined.

Lemma Sloc_repr_injective_witness :
  TDH.mkSloc 12 (-3) = TDH.mkSloc 12 (-3).
Proof.
  apply (Sloc_repr_injective (TDH.mkSloc 12 (-3)) (TDH.mkSloc 12 (-3))).
  reflexivity.
Defined.

Lemma SlocRange_repr_injective_witness :
  TDH.mkSlocRange (TDH.mkSloc 1 (-2)) (TDH.mkSloc (-3) 4)
  = TDH.mkSlocRange (TDH.mkSloc 1 (-2)) (TDH.mkSloc (-3) 4).
Proof.
  apply (SlocRange_repr_injective
           (TDH.mkSlocRange (TDH.mkSloc 1 (-2)) (TDH.mkSloc (-3) 4))
           (TDH.mkSlocRange (TDH.mkSloc 1 (-2)) (TDH.mkSloc (-3) 4))).
  reflexivity.
Defined.

Lemma step_out_checks_witness :
  OutCommand_invoke context EmptyString (world_at 11)
  = (Returned tt,
     logged (resumed "until 12" (world_at 11))
       [Print "x + 1 evaluated to: 42"]).
Proof.
  apply (proj2 (proj2 (proj2
           (step_out_checks context (state_at Started) (state_at (Done "R_1"))
              (mkScopeState scope1 [x_binding] [(1, expr1 Started)])
              (expr1 Started) 12 (world_at 11)
              eq_refl eq_refl eq_refl eq_refl)))
           (expr1 (Done "R_1")) "R_1");
    reflexivity.
Defined.

Lemma step_out_nothing_started_witness :
  OutCommand_invoke context EmptyString (world_at 9)
  = (Returned tt,
     logged (world_at 9) [Print "Not evaluating any expression currently"]).
Proof.
  apply (step_out_nothing_started context (state_at NotStarted) (world_at 9));
    reflexivity.
Defined.

(** The token data handler, by evaluation. *)

Example get_second_token :
  TDH.get handler 2 0 = TDH.Ok (TDH.mkToken string handler (token_at 2) 2 0).
Proof. reflexivity. Qed.

Example get_past_the_tokens :
  TDH.get handler 3 0 = TDH.GdbError "Out of bounds index".
Proof. reflexivity. Qed.

Example get_trivia_of_unknown_token :
  TDH.get handler 99 1
  = TDH.Ok (TDH.mkToken string handler (TDH.t string (trivia_at 1)) 99 1).
Proof. reflexivity. Qed.

Example token_text :
  TDH.Token_repr (fun k => k) (TDH.mkToken string handler (token_at 2) 2 0)
  = "<Token Semicolon 2/0 at 1:2-1:3>".
Proof. reflexivity. Qed.

End MoreDemoFacts.
